(** * Verification of the validation core of tc-micro-service-1

    Shallow embedding of the entity / value-object layer (Name, Email,
    Document, Money, SKU, Customer, Ingredient, Product) and of the customer
    creation use case ([src/application/use_cases/customer_use_cases.py]).

    Python exceptions become the [result] error monad; the two domain error
    kinds ([ValidationError], [BusinessRuleError]) are the constructors of
    [DomainError].  Methods that mutate [self] take the object and return it
    next to their result (explicit state passing). *)

From Stdlib Require Import String Ascii ZArith List Bool Lia.
Import ListNotations.

(* ------------------------------------------------------------------ *)
(** ** Errors and the result monad *)

Inductive DomainError : Type :=
| ValidationError (msg : string)
| BusinessRuleError (msg : string).

Inductive result (A : Type) : Type :=
| Ok (a : A)
| Err (e : DomainError).
Arguments Ok {A} a.
Arguments Err {A} e.

Definition bind {A B : Type} (r : result A) (k : A -> result B) : result B :=
  match r with
  | Ok a => k a
  | Err e => Err e
  end.

Notation "'let*' x ':=' r 'in' k" := (bind r (fun x => k))
  (at level 200, x name, r at level 100, k at level 200).

(** [raise_unless b e]: Python's [if not b: raise e]. *)
Definition raise_unless (b : bool) (e : DomainError) : result unit :=
  if b then Ok tt else Err e.

Definition error_msg (e : DomainError) : string :=
  match e with ValidationError m | BusinessRuleError m => m end.

(** Python's [sub in s] for strings. *)
Definition str_contains (s sub : string) : Prop :=
  exists p q, s = (p ++ sub ++ q)%string.

(* ------------------------------------------------------------------ *)
(** ** String helpers (ASCII) *)

Definition is_space (c : ascii) : bool :=
  match nat_of_ascii c with
  | 9 | 10 | 11 | 12 | 13 | 32 => true
  | _ => false
  end.

Definition is_digit (c : ascii) : bool :=
  let n := nat_of_ascii c in (48 <=? n) && (n <=? 57).

Definition is_upper (c : ascii) : bool :=
  let n := nat_of_ascii c in (65 <=? n) && (n <=? 90).

Definition is_lower (c : ascii) : bool :=
  let n := nat_of_ascii c in (97 <=? n) && (n <=? 122).

Definition is_alnum (c : ascii) : bool :=
  is_digit c || is_upper c || is_lower c.

Definition to_upper (c : ascii) : ascii :=
  if is_lower c then ascii_of_nat (nat_of_ascii c - 32) else c.

Definition to_lower (c : ascii) : ascii :=
  if is_upper c then ascii_of_nat (nat_of_ascii c + 32) else c.

Fixpoint drop_spaces (l : list ascii) : list ascii :=
  match l with
  | c :: t => if is_space c then drop_spaces t else l
  | [] => []
  end.

(** [str.strip()] *)
Definition strip (s : string) : string :=
  string_of_list_ascii
    (rev (drop_spaces (rev (drop_spaces (list_ascii_of_string s))))).

(** [str.title()]: a cased letter is upper-cased when it follows an uncased
    character and lower-cased when it follows a cased one. *)
Fixpoint title_aux (prev_cased : bool) (l : list ascii) : list ascii :=
  match l with
  | [] => []
  | c :: t =>
      let cased := is_upper c || is_lower c in
      (if cased then (if prev_cased then to_lower c else to_upper c) else c)
        :: title_aux cased t
  end.

Definition title (s : string) : string :=
  string_of_list_ascii (title_aux false (list_ascii_of_string s)).

(** [str.split(sep)] *)
Fixpoint split_on (sep : ascii) (l : list ascii) : list (list ascii) :=
  match l with
  | [] => [[]]
  | c :: t =>
      if Ascii.eqb c sep then [] :: split_on sep t
      else match split_on sep t with
           | w :: ws => (c :: w) :: ws
           | [] => [[c]]
           end
  end.

(** Decimal rendering of a natural number ([str(n)]). *)
Fixpoint nat_digits_rev (fuel n : nat) : list ascii :=
  match fuel with
  | O => []
  | S f =>
      ascii_of_nat (48 + n mod 10)
        :: (if n <? 10 then [] else nat_digits_rev f (n / 10))
  end.

Definition nat_to_string (n : nat) : string :=
  string_of_list_ascii (rev (nat_digits_rev (S n) n)).

(* ------------------------------------------------------------------ *)
(** ** Configuration

    [app_config] (src/config, not part of the sources) supplies the
    maximal name length and the reserved e-mail of the anonymous customer;
    the domain of the placeholder e-mail written by [Customer.soft_delete]
    is not fixed by the spec either.  They are section variables, so every
    definition below is generic in them. *)

Section Core.

Variable max_name_length : nat.
Variable anonymous_email : string.
Variable deleted_email_domain : string.

(* ------------------------------------------------------------------ *)
(** ** Value objects *)

Record Name : Type := mkName { name_value : string }.

(** Modelled from the spec: [Name.create] (src/entities/value_objects/name.py
    is missing): trims, rejects empty / whitespace-only, rejects length above
    [max_name_length], title-cases the result. *)
Definition Name_create (raw : string) : result Name :=
  let s := strip raw in
  if String.eqb s "" then Err (ValidationError "Name cannot be empty")
  else if max_name_length <? String.length s
  then Err (ValidationError "Name is too long")
  else Ok (mkName (title s)).

Record Email : Type := mkEmail { email_value : string }.

Fixpoint split_first_at (l : list ascii) : option (list ascii * list ascii) :=
  match l with
  | [] => None
  | c :: t =>
      if Ascii.eqb c "@"%char then Some ([], t)
      else match split_first_at t with
           | Some (a, b) => Some (c :: a, b)
           | None => None
           end
  end.

(** Modelled from the spec: [Email.create] (email.py is missing): [""] is
    the unset e-mail; otherwise [local@domain] with both parts non-empty and
    a dot in the domain. *)
Definition Email_create (raw : string) : result Email :=
  let s := strip raw in
  if String.eqb s "" then Ok (mkEmail "")
  else match split_first_at (list_ascii_of_string s) with
       | None => Err (ValidationError "Invalid email format")
       | Some (local, domain) =>
           if negb (existsb (Ascii.eqb "@"%char) domain)
              && negb (Nat.eqb (List.length local) 0)
              && negb (Nat.eqb (List.length domain) 0)
              && existsb (Ascii.eqb "."%char) domain
           then Ok (mkEmail s)
           else Err (ValidationError "Invalid email format")
       end.

(** *** Document (11-digit tax id, check digits mod 11) *)

Record Document : Type := mkDocument { document_value : string }.

Definition Document_is_empty (d : Document) : bool :=
  String.eqb (document_value d) "".

Definition digit_chars (s : string) : list ascii :=
  filter is_digit (list_ascii_of_string s).

Definition digit_val (c : ascii) : nat := nat_of_ascii c - 48.

(** [sum(d_i * w_i)] with weights [w, w-1, ...] *)
Fixpoint weighted_sum (ds : list nat) (w : nat) : nat :=
  match ds with
  | [] => 0
  | d :: t => d * w + weighted_sum t (w - 1)
  end.

(** One check digit over [ds]: weights [length ds + 1] down to 2,
    remainder mod 11, [0] when the remainder is below 2, else [11 - r]. *)
Definition check_digit (ds : list nat) : nat :=
  let r := weighted_sum ds (S (List.length ds)) mod 11 in
  if r <? 2 then 0 else 11 - r.

Definition all_same (ds : list nat) : bool :=
  match ds with
  | [] => true
  | d :: t => forallb (Nat.eqb d) t
  end.

Definition check_digits_ok (ds : list nat) : bool :=
  Nat.eqb (nth 9 ds 0) (check_digit (firstn 9 ds))
  && Nat.eqb (nth 10 ds 0) (check_digit (firstn 10 ds)).

(** Modelled from the spec: [Document.create] (document.py is missing):
    [""] is the unset document; otherwise strips non-digits, requires 11
    digits, rejects all-identical sequences and checks both check digits. *)
Definition Document_create (raw : string) : result Document :=
  if String.eqb raw "" then Ok (mkDocument "")
  else
    let cs := digit_chars raw in
    let ds := map digit_val cs in
    if negb (Nat.eqb (List.length cs) 11)
    then Err (ValidationError "Document must have 11 digits")
    else if all_same ds
    then Err (ValidationError "Invalid document: all digits are equal")
    else if negb (check_digits_ok ds)
    then Err (ValidationError "Invalid document check digits")
    else Ok (mkDocument (string_of_list_ascii cs)).

(** *** Money: a Python [Decimal] is [coef * 10 ^ exp] *)

Record decimal : Type := mkDecimal { coef : Z; exp : Z }.

(** Number of fractional digits of the representation ([-exponent]). *)
Definition frac_digits (d : decimal) : Z := Z.max 0 (- exp d).

(** Decimal [==] compares values. *)
Definition dec_eqb (a b : decimal) : bool :=
  let m := Z.min (exp a) (exp b) in
  Z.eqb (coef a * 10 ^ (exp a - m)) (coef b * 10 ^ (exp b - m)).

Definition dec_negative (d : decimal) : bool := Z.ltb (coef d) 0.

Record Money : Type := mkMoney { amount : decimal }.

(** Modelled from the spec: [Money.create] / [Money(amount)] (money.py is
    missing): amount [>= 0] and at most 2 fractional digits. *)
Definition Money_create (a : decimal) : result Money :=
  if dec_negative a then Err (ValidationError "Amount cannot be negative")
  else if Z.ltb 2 (frac_digits a)
  then Err (ValidationError "Amount cannot have more than 2 decimal places")
  else Ok (mkMoney a).

(** *** SKU: PREFIX-NNNN-SUFFIX *)

Record SKU : Type := mkSKU { sku_value : string }.

Definition sku_segments_ok (segs : list (list ascii)) : bool :=
  match segs with
  | [p; n; s] =>
      negb (Nat.eqb (List.length p) 0) && forallb is_alnum p
      && Nat.eqb (List.length n) 4 && forallb is_digit n
      && negb (Nat.eqb (List.length s) 0) && forallb is_alnum s
  | _ => false
  end.

(** Modelled from the spec: [SKU.create] (sku.py is missing). *)
Definition SKU_create (raw : string) : result SKU :=
  let s := strip raw in
  if String.eqb s "" then Err (ValidationError "SKU cannot be empty")
  else if sku_segments_ok (split_on "-"%char (list_ascii_of_string s))
  then Ok (mkSKU s)
  else Err (ValidationError "Invalid SKU format").

(* ------------------------------------------------------------------ *)
(** ** Customer entity *)

(** [created_at] (a wall-clock timestamp) plays no part in the rules below
    and is left out. *)
Record Customer : Type := mkCustomer {
  internal_id : option nat;
  first_name : Name;
  last_name : Name;
  email : Email;
  document : Document;
  is_active : bool;
  is_anonymous : bool
}.

(** Modelled from the spec: [Customer.__init__] validation (customer.py is
    missing): an anonymous customer carries the reserved e-mail, a registered
    one a non-empty e-mail. *)
Definition Customer_new (iid : option nat) (fn ln : Name) (em : Email)
    (doc : Document) (active anonymous : bool) : result Customer :=
  if anonymous && negb (String.eqb (email_value em) anonymous_email)
  then Err (ValidationError "Anonymous customer must use the anonymous email")
  else if negb anonymous && String.eqb (email_value em) ""
  then Err (ValidationError "Registered customer must have an email")
  else Ok (mkCustomer iid fn ln em doc active anonymous).

(** Modelled from the spec: [Customer.create_registered]. *)
Definition Customer_create_registered (first last em doc : string)
    (iid : option nat) (active : bool) : result Customer :=
  let* fn := Name_create first in
  let* ln := Name_create last in
  let* e := Email_create em in
  let* d := Document_create doc in
  Customer_new iid fn ln e d active false.

(** Modelled from the spec: [Customer.can_place_order] (a pure predicate). *)
Definition can_place_order (c : Customer) : bool :=
  (is_active c && is_anonymous c)
  || (is_active c && negb (String.eqb (email_value (email c)) "")
      && negb (Document_is_empty (document c))).

Definition deleted_email (id : nat) : string :=
  ("deleted." ++ nat_to_string id ++ "@" ++ deleted_email_domain)%string.

(** Modelled from the spec: [Customer.soft_delete] mutates [self]; the
    customer after the call is returned next to the outcome. *)
Definition soft_delete (c : Customer) : result unit * Customer :=
  if negb (is_active c)
  then (Err (BusinessRuleError "Cannot delete inactive customer"), c)
  else match internal_id c with
       | None =>
           (Err (BusinessRuleError "Cannot delete customer without ID"), c)
       | Some id =>
           if is_anonymous c
           then (Err (BusinessRuleError "Cannot delete anonymous customer"), c)
           else (Ok tt,
                 {| internal_id := internal_id c;
                    first_name := mkName "Deleted";
                    last_name := last_name c;
                    email := mkEmail (deleted_email id);
                    document := mkDocument "";
                    is_active := false;
                    is_anonymous := is_anonymous c |})
       end.

(* ------------------------------------------------------------------ *)
(** ** Ingredient entity *)

Inductive IngredientType : Type :=
| BREAD | MEAT | CHEESE | VEGETABLE | SALAD | SAUCE | ICE | MILK | TOPPING.

Inductive ProductCategory : Type := BURGER | SIDE | DRINK | DESSERT.

Definition IngredientType_value (t : IngredientType) : string :=
  match t with
  | BREAD => "bread" | MEAT => "meat" | CHEESE => "cheese"
  | VEGETABLE => "vegetable" | SALAD => "salad" | SAUCE => "sauce"
  | ICE => "ice" | MILK => "milk" | TOPPING => "topping"
  end.

Definition ProductCategory_value (c : ProductCategory) : string :=
  match c with
  | BURGER => "burger" | SIDE => "side" | DRINK => "drink"
  | DESSERT => "dessert"
  end.

(** [ProductCategory(value)] *)
Definition ProductCategory_of_value (s : string) : result ProductCategory :=
  if String.eqb s "burger" then Ok BURGER
  else if String.eqb s "side" then Ok SIDE
  else if String.eqb s "drink" then Ok DRINK
  else if String.eqb s "dessert" then Ok DESSERT
  else Err (ValidationError ("Invalid product category: " ++ s)%string).

(** Modelled from the spec: the type / category compatibility table of
    the missing [IngredientType] definitions. The spec leaves the exact
    matrix to those definitions and says it is inferred from the sample
    data and the test fixtures, so the table follows them: the test
    src/tests/test_entities.py (line 125) requires [Ingredient.create] with
    type bread and [applies_to_side = True] to raise, and
    src/infra/scripts/init_db.py flags bread, meat and cheese for burgers
    only, vegetable, salad and sauce for burgers and sides, ice and milk
    for drinks, topping for desserts. *)
Definition type_compatible (t : IngredientType) (c : ProductCategory) : bool :=
  match c, t with
  | BURGER, (BREAD | MEAT | CHEESE | VEGETABLE | SALAD | SAUCE) => true
  | SIDE, (VEGETABLE | SALAD | SAUCE) => true
  | DRINK, (ICE | MILK) => true
  | DESSERT, TOPPING => true
  | _, _ => false
  end.

Record Ingredient : Type := mkIngredient {
  ing_internal_id : option nat;
  ing_name : Name;
  ing_price : Money;
  ing_is_active : bool;
  ingredient_type : IngredientType;
  applies_to_burger : bool;
  applies_to_side : bool;
  applies_to_drink : bool;
  applies_to_dessert : bool
}.

(** [getattr(ingredient, "applies_to_" + category.value)] *)
Definition applies_to (i : Ingredient) (c : ProductCategory) : bool :=
  match c with
  | BURGER => applies_to_burger i
  | SIDE => applies_to_side i
  | DRINK => applies_to_drink i
  | DESSERT => applies_to_dessert i
  end.

(** Check of the set flags, in the order burger, side, drink, dessert. *)
Fixpoint check_flags (t : IngredientType)
    (flags : list (ProductCategory * bool)) : result unit :=
  match flags with
  | [] => Ok tt
  | (c, b) :: rest =>
      if b && negb (type_compatible t c)
      then Err (BusinessRuleError
                  ("Ingredient type " ++ IngredientType_value t
                   ++ " cannot apply to " ++ ProductCategory_value c)%string)
      else check_flags t rest
  end.

(** Modelled from the spec: [Ingredient.create] (ingredient.py is missing).
    [price] and [ingredient_type] may be [None] in Python. *)
Definition Ingredient_create (name : string) (price : option Money)
    (active : bool) (ty : option IngredientType)
    (burger side drink dessert : bool) (iid : option nat)
    : result Ingredient :=
  let* n := Name_create name in
  match price with
  | None => Err (ValidationError "Ingredient price is required")
  | Some p =>
  match ty with
  | None => Err (ValidationError "Ingredient type is required")
  | Some t =>
      if negb (burger || side || drink || dessert)
      then Err (BusinessRuleError
                  "Ingredient must apply to at least one product category")
      else
        let* _ := check_flags t [(BURGER, burger); (SIDE, side);
                                 (DRINK, drink); (DESSERT, dessert)] in
        Ok (mkIngredient iid n p active t burger side drink dessert)
  end
  end.

(* ------------------------------------------------------------------ *)
(** ** Product entity *)

Record ProductReceiptItem : Type := mkReceiptItem {
  ingredient : Ingredient;
  quantity : Z
}.

Record Product : Type := mkProduct {
  prod_internal_id : option nat;
  prod_name : Name;
  prod_price : Money;
  category : ProductCategory;
  sku : SKU;
  default_ingredient : list ProductReceiptItem;
  prod_is_active : bool
}.

(** Every receipt item's ingredient must apply to the product's category. *)
Fixpoint check_receipt (c : ProductCategory)
    (items : list ProductReceiptItem) : result unit :=
  match items with
  | [] => Ok tt
  | it :: rest =>
      if applies_to (ingredient it) c then check_receipt c rest
      else Err (BusinessRuleError
                  ("Ingredient " ++ name_value (ing_name (ingredient it))
                   ++ " must apply to " ++ ProductCategory_value c)%string)
  end.

(** Modelled from the spec: the Product invariants checked by its
    constructor (product.py is missing): at least one receipt item, every
    ingredient compatible with the category. *)
Definition Product_validate (c : ProductCategory)
    (items : list ProductReceiptItem) : result unit :=
  match items with
  | [] => Err (ValidationError "Product must have at least one ingredient")
  | _ => check_receipt c items
  end.

Definition Product_new (iid : option nat) (n : Name) (p : Money)
    (c : ProductCategory) (s : SKU) (items : list ProductReceiptItem)
    (active : bool) : result Product :=
  let* _ := Product_validate c items in
  Ok (mkProduct iid n p c s items active).

(** Modelled from the spec: [Product.create]; [price], [category] and [sku]
    may be [None] in Python. *)
Definition Product_create (name : string) (price : option Money)
    (cat : option ProductCategory) (s : option SKU)
    (items : list ProductReceiptItem) (active : bool) (iid : option nat)
    : result Product :=
  let* n := Name_create name in
  match price with
  | None => Err (ValidationError "Product price is required")
  | Some p =>
  match cat with
  | None => Err (ValidationError "Product category is required")
  | Some c =>
  match s with
  | None => Err (ValidationError "Product SKU is required")
  | Some k => Product_new iid n p c k items active
  end
  end
  end.

(** Modelled from the spec: [Product.update(name, price, category, sku,
    default_ingredient)] builds the new value objects from raw input and
    re-runs the full validation before assigning to [self]; the product
    after the call is returned next to the outcome. *)
Definition Product_update (p : Product) (name : string) (price : decimal)
    (cat : string) (s : string) (items : list ProductReceiptItem)
    : result unit * Product :=
  let r :=
    let* n := Name_create name in
    let* m := Money_create price in
    let* c := ProductCategory_of_value cat in
    let* k := SKU_create s in
    Product_new (prod_internal_id p) n m c k items (prod_is_active p) in
  match r with
  | Ok p' => (Ok tt, p')
  | Err e => (Err e, p)
  end.

(* ------------------------------------------------------------------ *)
(** ** Customer creation use case
    (src/application/use_cases/customer_use_cases.py) *)

(** The [CustomerRepository] interface, as far as [CustomerCreateUseCase]
    uses it. *)
Class CustomerRepository (R : Type) : Type := {
  exists_by_document : R -> string -> bool;
  exists_by_email : R -> string -> bool;
  save : R -> Customer -> R * Customer
}.

Inductive UseCaseError : Type :=
| EntityError (e : DomainError)
| CustomerAlreadyExistsException (msg : string)
| CustomerBusinessRuleException (msg : string).

(** Repository calls, recorded in the order the use case makes them. *)
Inductive RepoCall : Type :=
| CallExistsByDocument (s : string)
| CallExistsByEmail (s : string)
| CallSave (c : Customer).

Record CustomerCreateRequest : Type := mkCustomerCreateRequest {
  req_first_name : string;
  req_last_name : string;
  req_email : string;
  req_document : string
}.

Context {R : Type} `{CustomerRepository R}.

(** Use-case computations: repository state in, outcome, repository state
    and the calls made out. *)
Definition UC (A : Type) : Type :=
  R -> (UseCaseError + A) * R * list RepoCall.

Definition uc_ret {A : Type} (a : A) : UC A := fun r => (inr a, r, []).

Definition uc_raise {A : Type} (e : UseCaseError) : UC A :=
  fun r => (inl e, r, []).

Definition uc_bind {A B : Type} (m : UC A) (k : A -> UC B) : UC B :=
  fun r =>
    match m r with
    | (inl e, r1, l1) => (inl e, r1, l1)
    | (inr a, r1, l1) =>
        match k a r1 with
        | (o, r2, l2) => (o, r2, l1 ++ l2)
        end
    end.

Notation "x <-- m ;; k" := (uc_bind m (fun x => k))
  (at level 61, m at next level, right associativity).

Definition uc_lift {A : Type} (m : result A) : UC A :=
  match m with
  | Ok a => uc_ret a
  | Err e => uc_raise (EntityError e)
  end.

Definition uc_exists_by_document (s : string) : UC bool :=
  fun r => (inr (exists_by_document r s), r, [CallExistsByDocument s]).

Definition uc_exists_by_email (s : string) : UC bool :=
  fun r => (inr (exists_by_email r s), r, [CallExistsByEmail s]).

Definition uc_save (c : Customer) : UC Customer :=
  fun r => let (r', c') := save r c in (inr c', r', [CallSave c]).

(** [CustomerCreateUseCase.execute]; the returned [CustomerResponse] is
    built from the saved customer, which stands for it here. *)
Definition CustomerCreateUseCase_execute (req : CustomerCreateRequest)
    : UC Customer :=
  customer <-- uc_lift (Customer_create_registered (req_first_name req)
                          (req_last_name req) (req_email req)
                          (req_document req) None true) ;;
  _ <-- (if negb (Document_is_empty (document customer)) then
           b <-- uc_exists_by_document (document_value (document customer)) ;;
           if b then uc_raise (CustomerAlreadyExistsException
                      ("Customer with document "
                       ++ document_value (document customer)
                       ++ " already exists")%string)
           else uc_ret tt
         else uc_ret tt) ;;
  _ <-- (if negb (String.eqb (email_value (email customer)) "") then
           b <-- uc_exists_by_email (email_value (email customer)) ;;
           if b then uc_raise (CustomerAlreadyExistsException
                      ("Customer with email " ++ email_value (email customer)
                       ++ " already exists")%string)
           else uc_ret tt
         else uc_ret tt) ;;
  _ <-- (if negb (can_place_order customer)
         then uc_raise (CustomerBusinessRuleException
                "Customer does not meet requirements to place orders")
         else uc_ret tt) ;;
  uc_save customer.

End Core.

(* ------------------------------------------------------------------ *)
(** ** An in-memory repository

    A list of customers; [save] assigns the next identifier, as the SQL
    gateway does with its autoincrement key. *)

Definition set_internal_id (c : Customer) (id : nat) : Customer :=
  {| internal_id := Some id; first_name := first_name c;
     last_name := last_name c; email := email c; document := document c;
     is_active := is_active c; is_anonymous := is_anonymous c |}.

#[export] Instance ListCustomerRepository : CustomerRepository (list Customer) := {
  exists_by_document r s :=
    existsb (fun c => String.eqb (document_value (document c)) s) r;
  exists_by_email r s :=
    existsb (fun c => String.eqb (email_value (email c)) s) r;
  save r c :=
    let c' := set_internal_id c (S (List.length r)) in (c' :: r, c')
}.

(* ------------------------------------------------------------------ *)
(** ** API Gateway router (infra/scripts/router.py) *)

Module Router.

(** A field of the API Gateway event: absent, JSON [null], or a string. *)
Inductive JField : Type := Missing | Null | JStr (s : string).

Record Event : Type := mkEvent {
  httpMethod : JField;
  path : JField;
  resource : JField
}.

(** [event.get(key, "")]; [None] is Python's [None]. *)
Definition get_or_empty (f : JField) : option string :=
  match f with
  | Missing => Some ""%string
  | Null => None
  | JStr s => Some s
  end.

(** A route configuration dict: its two read keys, and whether it holds
    any other key (which only matters for its truthiness). *)
Record RouteConfig : Type := mkRouteConfig {
  allowed_methods : option (list string);
  handler : option string;
  other_keys : bool
}.

(** [bool(route_config)]: a dict is falsy when it has no key. *)
Definition route_config_truthy (rc : RouteConfig) : bool :=
  match allowed_methods rc, handler rc with
  | None, None => other_keys rc
  | _, _ => true
  end.

(** [ROUTE_MAPPING] as shipped: every example entry is commented out. *)
Definition ROUTE_MAPPING : list (string * RouteConfig) := [].

(** [dict.get(key)] *)
Fixpoint dict_get (m : list (string * RouteConfig)) (k : string)
    : option RouteConfig :=
  match m with
  | [] => None
  | (k', v) :: rest => if String.eqb k' k then Some v else dict_get rest k
  end.

(** The JSON body, before [json.dumps]. *)
Inductive Body : Type :=
| ErrorBody (error : string)
| SuccessBody (message service method path environment : string).

Record Response : Type := mkResponse {
  statusCode : nat;
  headers : list (string * string);
  body : Body
}.

Definition response_headers : list (string * string) :=
  [("Content-Type", "application/json"); ("Access-Control-Allow-Origin", "*")]%string.

Definition success_response (b : Body) : Response :=
  mkResponse 200 response_headers b.

Definition error_response (status_code : nat) (message : string) : Response :=
  mkResponse status_code response_headers (ErrorBody message).

Fixpoint drop_slashes (l : list ascii) : list ascii :=
  match l with
  | c :: t => if Ascii.eqb c "/"%char then drop_slashes t else l
  | [] => []
  end.

(** [str.strip("/")] *)
Definition strip_slashes (s : string) : string :=
  string_of_list_ascii
    (rev (drop_slashes (rev (drop_slashes (list_ascii_of_string s))))).

(** An f-string rendering of a [str] or [None]. *)
Definition py_str (o : option string) : string :=
  match o with Some s => s | None => "None"%string end.

(** [path_parts = path.strip("/").split("/")] and
    [service_name = path_parts[0] if path_parts else None]; [split]
    never returns an empty list, so the [None] branch is dead. *)
Definition service_name_of (p : string) : string :=
  match split_on "/"%char (list_ascii_of_string (strip_slashes p)) with
  | first :: _ => string_of_list_ascii first
  | [] => ""%string
  end.

(** The path consists of slashes only (or is empty). *)
Definition only_slashes (p : string) : bool :=
  forallb (fun c => Ascii.eqb c "/"%char) (list_ascii_of_string p).

(** [lambda_handler] over a route table and the [ENVIRONMENT] variable.
    [path.strip] on [None] raises [AttributeError], which the outer
    [except Exception] turns into a 500. *)
Definition lambda_handler_with (mapping : list (string * RouteConfig))
    (environment : option string) (ev : Event) : Response :=
  let http_method := get_or_empty (httpMethod ev) in
  match get_or_empty (path ev) with
  | None => error_response 500 "Internal server error"
  | Some p =>
      let service_name := service_name_of p in
      if String.eqb service_name "" then error_response 400 "Invalid path format"
      else
        match dict_get mapping service_name with
        | Some rc =>
            if route_config_truthy rc then
              (let allowed := match allowed_methods rc with
                             | Some l => l | None => [] end in
              let method_ok := match http_method with
                               | Some m => existsb (String.eqb m) allowed
                               | None => false
                               end in
              if negb method_ok then
                error_response 405
                  ("Method " ++ py_str http_method ++ " not allowed for service '"
                   ++ service_name ++ "'")%string
              else
                success_response
                  (SuccessBody ("Request routed to " ++ py_str (handler rc))
                     service_name (py_str http_method) p
                     (match environment with Some e => e | None => "dev" end)))
            else error_response 404 ("Service '" ++ service_name ++ "' not found")%string
        | None => error_response 404 ("Service '" ++ service_name ++ "' not found")%string
        end
  end.

(** The two example entries left commented out in [ROUTE_MAPPING]. *)
Definition EXAMPLE_ROUTE_MAPPING : list (string * RouteConfig) :=
  [("orders"%string,
    mkRouteConfig (Some ["GET"; "POST"; "PUT"; "DELETE"]%string)
      (Some "orders-service"%string) false);
   ("users"%string,
    mkRouteConfig (Some ["GET"; "POST"]%string) (Some "users-service"%string) false)].

Definition lambda_handler (environment : option string) (ev : Event) : Response :=
  lambda_handler_with ROUTE_MAPPING environment ev.

End Router.

(* ------------------------------------------------------------------ *)
(** ** The SQL product gateway
    ([src/adapters/gateways/sql_product_repository.py]) and the product
    use cases ([src/application/use_cases/product_use_cases.py]) *)

Module ProductGateway.

(** Python exceptions raised by the gateway and the use cases. *)
Inductive PyError : Type :=
| PyValueError (msg : string)
| PyDomainError (e : DomainError)
| ProductNotFoundException (msg : string)
| ProductAlreadyExistsException (msg : string)
| ProductValidationException (msg : string).

Inductive outcome (A : Type) : Type :=
| Done (a : A)
| Raised (e : PyError).
Arguments Done {A} a.
Arguments Raised {A} e.

(** One element of the [default_ingredient] JSONB array. A dict has the
    keys [ingredient_internal_id], [ingredient_id] (old format) and
    [quantity]. For the two id keys [None] stands for a missing key or
    [null] ([.get] reads both as [None]); for [quantity] [None] stands for a
    missing key only ([.get('quantity', 1)] then gives 1): a present [null]
    quantity would reach [ProductReceiptItem] as [None], which the integer
    quantity of the receipt item does not represent, so such rows are left
    out of the model. Any other JSON value is [JOther]. *)
Inductive JItem : Type :=
| JDict (ingredient_internal_id : option nat) (ingredient_id : option string)
        (quantity : option Z)
| JOther.

(** Python truthiness of an optional integer id and of an optional string. *)
Definition id_truthy (o : option nat) : bool :=
  match o with Some (S _) => true | _ => false end.

Definition str_truthy (o : option string) : bool :=
  match o with Some s => negb (String.eqb s "") | None => false end.

(** A row of the [products] table. The [Float] price column is kept as the
    decimal it stores. *)
Record ProductModel : Type := mkProductModel {
  pm_internal_id : option nat;
  pm_name : string;
  pm_price : decimal;
  pm_category : string;
  pm_sku : string;
  pm_default_ingredient : list JItem;
  pm_is_active : bool
}.

Definition Table : Type := list ProductModel.

(** Enum [==] on [ProductCategory]. *)
Definition ProductCategory_eqb (a b : ProductCategory) : bool :=
  match a, b with
  | BURGER, BURGER | SIDE, SIDE | DRINK, DRINK | DESSERT, DESSERT => true
  | _, _ => false
  end.

(** The serialisation loop of [_to_model]: items whose ingredient has no
    (truthy) [internal_id] are skipped with a warning. *)
Fixpoint receipt_to_json (items : list ProductReceiptItem) : list JItem :=
  match items with
  | [] => []
  | it :: rest =>
      match ing_internal_id (ingredient it) with
      | Some (S k) => JDict (Some (S k)) None (Some (quantity it)) :: receipt_to_json rest
      | _ => receipt_to_json rest
      end
  end.

Section Gateway.

Variable max_name_length : nat.

(** [self.ingredient_repository]: [None], or its [find_by_id(id,
    include_inactive=True)], whose [ValueError] the loop catches and reads
    as "no ingredient". *)
Variable ingredient_repository : option (nat -> option Ingredient).

(** The deserialisation loop of [_to_entity]. *)
Fixpoint receipt_of_json (js : list JItem) : list ProductReceiptItem :=
  match js with
  | [] => []
  | JOther :: rest => receipt_of_json rest
  | JDict iid oid q :: rest =>
      let qty := match q with Some n => n | None => 1%Z end in
      let keep ing := match ing with
                      | Some i => mkReceiptItem i qty :: receipt_of_json rest
                      | None => receipt_of_json rest
                      end in
      match ingredient_repository with
      | None => keep None
      | Some find_by_id =>
          match iid with
          | Some (S k) => keep (find_by_id (S k))
          | _ =>
              if str_truthy oid
              then receipt_of_json rest (* old UUID format: [continue] *)
              else keep None
          end
      end
  end.

Definition conversion_error (msg : string) : PyError :=
  PyValueError ("Failed to convert model to entity: " ++ msg)%string.

(** [_to_entity]: [Name.create], [Money(amount=...)], [ProductCategory(...)]
    and [SKU.create] in argument order, then the [Product] constructor,
    which re-checks the receipt. *)
Definition to_entity (m : ProductModel) : outcome Product :=
  match receipt_of_json (pm_default_ingredient m) with
  | [] => Raised (conversion_error "Product must have a default ingredient")
  | items =>
      match (let* n := Name_create max_name_length (pm_name m) in
             let* pr := Money_create (pm_price m) in
             let* c := ProductCategory_of_value (pm_category m) in
             let* s := SKU_create (pm_sku m) in
             Product_new (pm_internal_id m) n pr c s items
               (pm_is_active m)) with
      | Ok p => Done p
      | Err e => Raised (conversion_error (error_msg e))
      end
  end.

End Gateway.

Definition to_model (p : Product) : ProductModel :=
  mkProductModel (prod_internal_id p) (name_value (prod_name p))
    (amount (prod_price p)) (ProductCategory_value (category p))
    (sku_value (sku p)) (receipt_to_json (default_ingredient p))
    (prod_is_active p).

(** The [DatabaseInterface] (its module is not in the repository) is read
    as a table in insertion order: [find_by_field] returns the first row
    whose field equals the value, [add] appends the row, giving it the next
    id when it has none, and [update] writes the (mutated) row back in
    place. *)
Definition has_id (id : nat) (r : ProductModel) : bool :=
  match pm_internal_id r with Some j => Nat.eqb j id | None => false end.

Definition has_sku (s : string) (r : ProductModel) : bool :=
  String.eqb (pm_sku r) s.

Fixpoint max_id (t : Table) : nat :=
  match t with
  | [] => 0
  | r :: rest => Nat.max (match pm_internal_id r with Some j => j | None => 0 end)
                   (max_id rest)
  end.

Definition db_add (t : Table) (m : ProductModel) : Table * ProductModel :=
  let m' := match pm_internal_id m with
            | Some _ => m
            | None => {| pm_internal_id := Some (S (max_id t));
                         pm_name := pm_name m; pm_price := pm_price m;
                         pm_category := pm_category m; pm_sku := pm_sku m;
                         pm_default_ingredient := pm_default_ingredient m;
                         pm_is_active := pm_is_active m |}
            end in
  (t ++ [m'], m').

Fixpoint replace_first (p : ProductModel -> bool) (m : ProductModel) (t : Table)
    : Table :=
  match t with
  | [] => []
  | r :: rest => if p r then m :: rest else r :: replace_first p m rest
  end.

Definition set_active (r : ProductModel) (b : bool) : ProductModel :=
  {| pm_internal_id := pm_internal_id r; pm_name := pm_name r;
     pm_price := pm_price r; pm_category := pm_category r; pm_sku := pm_sku r;
     pm_default_ingredient := pm_default_ingredient r; pm_is_active := b |}.

Section Repository.

Variable max_name_length : nat.
Variable ingredient_repository : option (nat -> option Ingredient).

Definition row_to_entity (r : ProductModel) : outcome Product :=
  to_entity max_name_length ingredient_repository r.

(** [save]: an existing row is overwritten field by field, otherwise the
    model is added; the session is committed before [_to_entity] runs, so
    a conversion error is raised after the row is stored (the rollback
    that follows has nothing left to undo). *)
Definition save (t : Table) (p : Product) : outcome Product * Table :=
  let insert := let (t', row) := db_add t (to_model p) in (row_to_entity row, t') in
  match prod_internal_id p with
  | Some (S k) =>
      match find (has_id (S k)) t with
      | Some db =>
          let row := {| pm_internal_id := pm_internal_id db;
                        pm_name := name_value (prod_name p);
                        pm_price := amount (prod_price p);
                        pm_category := ProductCategory_value (category p);
                        pm_sku := sku_value (sku p);
                        pm_default_ingredient := pm_default_ingredient (to_model p);
                        pm_is_active := prod_is_active p |} in
          (row_to_entity row, replace_first (has_id (S k)) row t)
      | None => insert
      end
  | _ => insert
  end.

Definition visible (include_inactive : bool) (r : ProductModel) : bool :=
  include_inactive || pm_is_active r.

Definition find_by_id (t : Table) (id : nat) (include_inactive : bool)
    : option Product :=
  match find (has_id id) t with
  | None => None
  | Some r =>
      if visible include_inactive r
      then match row_to_entity r with Done p => Some p | Raised _ => None end
      else None
  end.

Definition find_by_sku (t : Table) (s : SKU) (include_inactive : bool)
    : option Product :=
  match find (has_sku (sku_value s)) t with
  | None => None
  | Some r =>
      if visible include_inactive r
      then match row_to_entity r with Done p => Some p | Raised _ => None end
      else None
  end.

Definition find_all (t : Table) (include_inactive : bool) : list Product :=
  let rows := if include_inactive then t else filter pm_is_active t in
  flat_map (fun r => match row_to_entity r with Done p => [p] | Raised _ => [] end) rows.

Definition delete (t : Table) (id : nat) : bool * Table :=
  match find (has_id id) t with
  | None => (false, t)
  | Some r => (true, replace_first (has_id id) (set_active r false) t)
  end.

Definition exists_by_sku (t : Table) (s : SKU) (include_inactive : bool) : bool :=
  match find (has_sku (sku_value s)) t with
  | None => false
  | Some r => visible include_inactive r
  end.

Definition exists_by_id (t : Table) (id : nat) (include_inactive : bool) : bool :=
  match find (has_id id) t with
  | None => false
  | Some r => visible include_inactive r
  end.

(** [ProductCreateUseCase.execute]; the entity built by
    [Product.create_registered] (product.py is missing) is passed in. *)
Definition ProductCreateUseCase_execute (t : Table) (built : result Product)
    : outcome Product * Table :=
  match built with
  | Err e => (Raised (PyDomainError e), t)
  | Ok p =>
      if exists_by_sku t (sku p) false
      then (Raised (ProductAlreadyExistsException
                      ("Product with SKU " ++ sku_value (sku p) ++ " already exists")),
            t)
      else save t p
  end.

(** [ProductUpdateUseCase.execute]; the request carries the raw fields
    handed to [Product.update]. *)
Definition ProductUpdateUseCase_execute (t : Table) (id : nat) (name : string)
    (price : decimal) (cat : string) (s : string)
    (items : list ProductReceiptItem) : outcome Product * Table :=
  match find_by_id t id true with
  | None =>
      (Raised (ProductNotFoundException
                 ("Product with internal_id " ++ nat_to_string id ++ " not found")), t)
  | Some p =>
      match Product_update max_name_length p name price cat s items with
      | (Err e, _) => (Raised (PyDomainError e), t)
      | (Ok _, p') =>
          match find_by_sku t (sku p') true with
          | Some q =>
              if negb (match prod_internal_id q with
                       | Some j => Nat.eqb j id | None => false end)
              then (Raised (ProductAlreadyExistsException
                      ("Product with SKU " ++ sku_value (sku p') ++ " already exists")), t)
              else match save t p' with
                   | (Done _, t') => (Done p', t')
                   | (Raised e, t') => (Raised e, t')
                   end
          | None =>
              match save t p' with
              | (Done _, t') => (Done p', t')
              | (Raised e, t') => (Raised e, t')
              end
          end
      end
  end.

(** [ProductDeleteUseCase.execute] *)
Definition ProductDeleteUseCase_execute (t : Table) (id : nat) : outcome bool * Table :=
  match find_by_id t id true with
  | None =>
      (Raised (ProductNotFoundException
                 ("Product with internal_id " ++ nat_to_string id ++ " not found")), t)
  | Some _ => let (_, t') := delete t id in (Done true, t')
  end.

(** [ProductListByCategoryUseCase.execute]: [ProductCategory(category)]
    raising [ValueError] becomes [ProductValidationException]. *)
Definition ProductListByCategoryUseCase_execute (t : Table) (cat : string)
    (include_inactive : bool) : outcome (list Product) :=
  match ProductCategory_of_value cat with
  | Err _ => Raised (ProductValidationException ("Invalid category: " ++ cat)%string)
  | Ok c =>
      Done (filter (fun p => ProductCategory_eqb (category p) c)
              (find_all t include_inactive))
  end.

End Repository.

End ProductGateway.

(* ------------------------------------------------------------------ *)
(** ** The SQL customer gateway
    ([src/adapters/gateways/sql_customer_repository.py]) and the customer
    update / delete use cases
    ([src/application/use_cases/customer_use_cases.py]) *)

Module CustomerGateway.

Inductive PyError : Type :=
| PyDomainError (e : DomainError)
| IntegrityError
| CustomerNotFoundException (msg : string)
| CustomerAlreadyExistsException (msg : string)
| CustomerBusinessRuleException (msg : string).

Inductive outcome (A : Type) : Type :=
| Done (a : A)
| Raised (e : PyError).
Arguments Done {A} a.
Arguments Raised {A} e.

(** A row of the [customers] table ([created_at] left out); [None] is SQL
    NULL. *)
Record CustomerModel : Type := mkCustomerModel {
  cm_internal_id : option nat;
  cm_first_name : string;
  cm_last_name : string;
  cm_email : option string;
  cm_document : option string;
  cm_is_anonymous : bool;
  cm_is_active : bool
}.

Definition Table : Type := list CustomerModel.

(** Rows whose column [f] holds the value [v] (NULL never matches). *)
Fixpoint count_value (f : CustomerModel -> option string) (v : string) (t : Table)
    : nat :=
  match t with
  | [] => 0
  | r :: rest =>
      (match f r with Some w => if String.eqb w v then 1 else 0 | None => 0 end)
      + count_value f v rest
  end.

(** [unique=True]: no non-NULL value occurs twice in the column. *)
Definition column_unique (f : CustomerModel -> option string) (t : Table) : bool :=
  forallb (fun r => match f r with
                    | Some v => Nat.leb (count_value f v t) 1
                    | None => true
                    end) t.

(** [commit]: the database accepts the session's table only when the
    [email] and [document] unique constraints hold; otherwise it raises
    [IntegrityError] and the rollback restores the previous table. *)
Definition commit (t : Table) : option Table :=
  if column_unique cm_email t && column_unique cm_document t then Some t else None.

(** The [DatabaseInterface] (not in the repository) as for products:
    [find_by_field] returns the first matching row, [add] appends,
    [update] writes the row back in place. *)
Definition has_id (id : nat) (r : CustomerModel) : bool :=
  match cm_internal_id r with Some j => Nat.eqb j id | None => false end.

Definition has_value (f : CustomerModel -> option string) (v : string)
    (r : CustomerModel) : bool :=
  match f r with Some w => String.eqb w v | None => false end.

Fixpoint replace_first (p : CustomerModel -> bool) (m : CustomerModel) (t : Table)
    : Table :=
  match t with
  | [] => []
  | r :: rest => if p r then m :: rest else r :: replace_first p m rest
  end.

Fixpoint max_id (t : Table) : nat :=
  match t with
  | [] => 0
  | r :: rest => Nat.max (match cm_internal_id r with Some j => j | None => 0 end)
                   (max_id rest)
  end.

Definition with_id (m : CustomerModel) (id : nat) : CustomerModel :=
  {| cm_internal_id := Some id; cm_first_name := cm_first_name m;
     cm_last_name := cm_last_name m; cm_email := cm_email m;
     cm_document := cm_document m; cm_is_anonymous := cm_is_anonymous m;
     cm_is_active := cm_is_active m |}.

Definition db_add (t : Table) (m : CustomerModel) : Table * CustomerModel :=
  let m' := match cm_internal_id m with
            | Some _ => m
            | None => with_id m (S (max_id t))
            end in
  (t ++ [m'], m').

(** [x.value if not x.value == "" else None] *)
Definition nullable (s : string) : option string :=
  if String.eqb s "" then None else Some s.

Section Gateway.

Variable max_name_length : nat.
Variable anonymous_email : string.
Variable deleted_email_domain : string.
(** The sentinel names of [Customer.create_anonymous] (customer.py is
    missing). *)
Variables anonymous_first_name anonymous_last_name : string.

(** [_to_entity]: the value objects are rebuilt with their [create]
    (which may raise), the [Customer] itself without validation. *)
Definition to_entity (r : CustomerModel) : result Customer :=
  let* fn := Name_create max_name_length (cm_first_name r) in
  let* ln := Name_create max_name_length (cm_last_name r) in
  let* e := Email_create (match cm_email r with Some s => s | None => "" end) in
  let* d := Document_create (match cm_document r with Some s => s | None => "" end) in
  Ok (mkCustomer (cm_internal_id r) fn ln e d (cm_is_active r) (cm_is_anonymous r)).

Definition to_model (c : Customer) : CustomerModel :=
  mkCustomerModel (internal_id c) (name_value (first_name c)) (name_value (last_name c))
    (nullable (email_value (email c)))
    (if Document_is_empty (document c) then None else Some (document_value (document c)))
    (is_anonymous c) (is_active c).

Definition lift {A} (r : result A) : outcome A :=
  match r with Ok a => Done a | Err e => Raised (PyDomainError e) end.

(** [save] *)
Definition save (t : Table) (c : Customer) : outcome Customer * Table :=
  let staged :=
    let insert := db_add t (to_model c) in
    match internal_id c with
    | Some (S k) =>
        match find (has_id (S k)) t with
        | Some db =>
            let row := {| cm_internal_id := cm_internal_id db;
                          cm_first_name := name_value (first_name c);
                          cm_last_name := name_value (last_name c);
                          cm_email := nullable (email_value (email c));
                          cm_document := if Document_is_empty (document c) then None
                                         else Some (document_value (document c));
                          cm_is_anonymous := is_anonymous c;
                          cm_is_active := is_active c |} in
            (replace_first (has_id (S k)) row t, row)
        | None => insert
        end
    | _ => insert
    end in
  let (t1, row) := staged in
  match commit t1 with
  | None => (Raised IntegrityError, t)
  | Some t' => (lift (to_entity row), t')
  end.

Definition visible (include_inactive : bool) (r : CustomerModel) : bool :=
  include_inactive || cm_is_active r.

(** [find_by_id], [find_by_document], [find_by_email]: a conversion error
    is not caught. *)
Definition find_row (p : CustomerModel -> bool) (t : Table) (include_inactive : bool)
    : outcome (option Customer) :=
  match find p t with
  | None => Done None
  | Some r =>
      if visible include_inactive r
      then match to_entity r with Ok c => Done (Some c) | Err e => Raised (PyDomainError e) end
      else Done None
  end.

Definition find_by_id (t : Table) (id : nat) (include_inactive : bool) :=
  find_row (has_id id) t include_inactive.

Definition find_by_document (t : Table) (d : string) (include_inactive : bool) :=
  find_row (has_value cm_document d) t include_inactive.

Definition find_by_email (t : Table) (e : string) (include_inactive : bool) :=
  find_row (has_value cm_email e) t include_inactive.

(** [delete]: the row is converted, [Customer.soft_delete] applied, and its
    fields copied back, the document as its (empty) value, not NULL. *)
Definition delete (t : Table) (id : nat) : outcome bool * Table :=
  match find (has_id id) t with
  | None => (Done false, t)
  | Some r =>
      match to_entity r with
      | Err e => (Raised (PyDomainError e), t)
      | Ok c =>
          match soft_delete deleted_email_domain c with
          | (Err e, _) => (Raised (PyDomainError e), t)
          | (Ok _, c') =>
              let row := {| cm_internal_id := cm_internal_id r;
                            cm_first_name := name_value (first_name c');
                            cm_last_name := name_value (last_name c');
                            cm_email := Some (email_value (email c'));
                            cm_document := Some (document_value (document c'));
                            cm_is_anonymous := is_anonymous c';
                            cm_is_active := is_active c' |} in
              match commit (replace_first (has_id id) row t) with
              | None => (Raised IntegrityError, t)
              | Some t' => (Done true, t')
              end
          end
      end
  end.

(** Modelled from the spec: [Customer.create_anonymous]. *)
Definition Customer_create_anonymous (iid : option nat) : Customer :=
  mkCustomer iid (mkName anonymous_first_name) (mkName anonymous_last_name)
    (mkEmail anonymous_email) (mkDocument "") true true.

(** [get_anonymous_customer]: the commit of a new anonymous row comes
    before its conversion. *)
Definition get_anonymous_customer (t : Table) : outcome Customer * Table :=
  match find cm_is_anonymous t with
  | Some r => (lift (to_entity r), t)
  | None =>
      let (t1, row) := db_add t (to_model (Customer_create_anonymous None)) in
      match commit t1 with
      | None => (Raised IntegrityError, t)
      | Some t' => (lift (to_entity row), t')
      end
  end.

Definition id_differs (c : Customer) (iid : option nat) : bool :=
  match internal_id c, iid with
  | Some a, Some b => negb (Nat.eqb a b)
  | None, None => false
  | _, _ => true
  end.

Definition outcome_bind {A B : Type} (o : outcome A) (k : A -> outcome B) : outcome B :=
  match o with Done a => k a | Raised e => Raised e end.

Local Notation "'let!' x ':=' o 'in' k" := (outcome_bind o (fun x => k))
  (at level 200, x name, o at level 100, k at level 200).

(** [if existing and existing.internal_id != customer.internal_id: raise] *)
Definition conflict_check (found : outcome (option Customer)) (c : Customer)
    (msg : string) : outcome unit :=
  let! existing := found in
  match existing with
  | Some q => if id_differs q (internal_id c)
              then Raised (CustomerAlreadyExistsException msg) else Done tt
  | None => Done tt
  end.

(** [CustomerUpdateUseCase.execute]: the checks only read the table; the
    save comes last. *)
Definition CustomerUpdateUseCase_execute (t : Table) (iid : option nat)
    (first last em doc : string) : outcome Customer * Table :=
  let checked :=
    let! c := lift (Customer_create_registered max_name_length anonymous_email
                      first last em doc iid true) in
    let! existing := match internal_id c with
                     | Some id => find_by_id t id true
                     | None => Done None
                     end in
    let! _ := match existing with
              | Some _ => Done tt
              | None => Raised (CustomerNotFoundException
                          ("Customer with internal_id "
                           ++ (match internal_id c with
                               | Some id => nat_to_string id | None => "None" end)
                           ++ " not found"))
              end in
    let! _ := if Document_is_empty (document c) then Done tt
              else conflict_check (find_by_document t (document_value (document c)) true) c
                     ("Document " ++ document_value (document c)
                      ++ " is already used by another customer") in
    let! _ := if String.eqb (email_value (email c)) "" then Done tt
              else conflict_check (find_by_email t (email_value (email c)) true) c
                     ("Email " ++ email_value (email c)
                      ++ " is already used by another customer") in
    let! _ := if negb (can_place_order c)
              then Raised (CustomerBusinessRuleException
                             "Customer does not meet requirements to place orders")
              else Done tt in
    Done c in
  match checked with
  | Raised e => (Raised e, t)
  | Done c => save t c
  end.

(** [CustomerDeleteUseCase.execute] *)
Definition CustomerDeleteUseCase_execute (t : Table) (id : nat) : outcome bool * Table :=
  match delete t id with
  | (Done false, t') =>
      (Raised (CustomerNotFoundException
                 ("Customer with internal_id " ++ nat_to_string id ++ " not found")), t')
  | r => r
  end.

End Gateway.

End CustomerGateway.

(* ------------------------------------------------------------------ *)
(** ** Ingredient gateway and use cases

    [SQLIngredientRepository] (src/src/adapters/gateways/
    sql_ingredient_repository.py) over the same reading of the missing
    [DatabaseInterface] as for the products: [find_by_field] returns the
    first row whose field equals the value, [find_all_by_field] and
    [find_all_by_multiple_fields] the matching rows in table order, [add]
    appends (with the next id when the row has none) and [update] writes
    the row back in place. The [ingredients] table has no unique column,
    so [commit] always succeeds. The use cases are those of
    src/src/application/use_cases/ingredient_use_cases.py. *)

Module IngredientGateway.

Inductive PyError : Type :=
| PyValueError (msg : string)
| PyDomainError (e : DomainError)
| IngredientNotFoundException (msg : string)
| IngredientAlreadyExistsException (msg : string).

Inductive outcome (A : Type) : Type :=
| Done (a : A)
| Raised (e : PyError).
Arguments Done {A} a.
Arguments Raised {A} e.

Definition outcome_bind {A B : Type} (o : outcome A) (k : A -> outcome B) : outcome B :=
  match o with Done a => k a | Raised e => Raised e end.

Local Notation "'let!' x ':=' o 'in' k" := (outcome_bind o (fun x => k))
  (at level 200, x name, o at level 100, k at level 200).

Definition lift {A} (r : result A) : outcome A :=
  match r with Ok a => Done a | Err e => Raised (PyDomainError e) end.

(** A row of the [ingredients] table ([created_at] left out); the
    [DECIMAL(10, 2)] price is kept as the decimal it stores. *)
Record IngredientModel : Type := mkIngredientModel {
  im_internal_id : option nat;
  im_name : string;
  im_price : decimal;
  im_is_active : bool;
  im_type : string;
  im_applies_to_burger : bool;
  im_applies_to_side : bool;
  im_applies_to_drink : bool;
  im_applies_to_dessert : bool
}.

Definition Table : Type := list IngredientModel.

(** [IngredientType(value)] *)
Definition IngredientType_of_value (s : string) : option IngredientType :=
  if String.eqb s "bread" then Some BREAD
  else if String.eqb s "meat" then Some MEAT
  else if String.eqb s "cheese" then Some CHEESE
  else if String.eqb s "vegetable" then Some VEGETABLE
  else if String.eqb s "salad" then Some SALAD
  else if String.eqb s "sauce" then Some SAUCE
  else if String.eqb s "ice" then Some ICE
  else if String.eqb s "milk" then Some MILK
  else if String.eqb s "topping" then Some TOPPING
  else None.

(** [column == value] on the id column; [None] is read as [IS NULL]. *)
Definition has_id (id : option nat) (r : IngredientModel) : bool :=
  match im_internal_id r, id with
  | Some j, Some k => Nat.eqb j k
  | None, None => true
  | _, _ => false
  end.

Definition has_name (n : string) (r : IngredientModel) : bool :=
  String.eqb (im_name r) n.

Definition has_type (v : string) (r : IngredientModel) : bool :=
  String.eqb (im_type r) v.

Fixpoint max_id (t : Table) : nat :=
  match t with
  | [] => 0
  | r :: rest => Nat.max (match im_internal_id r with Some j => j | None => 0 end)
                   (max_id rest)
  end.

Definition with_id (m : IngredientModel) (id : option nat) : IngredientModel :=
  {| im_internal_id := id; im_name := im_name m; im_price := im_price m;
     im_is_active := im_is_active m; im_type := im_type m;
     im_applies_to_burger := im_applies_to_burger m;
     im_applies_to_side := im_applies_to_side m;
     im_applies_to_drink := im_applies_to_drink m;
     im_applies_to_dessert := im_applies_to_dessert m |}.

Definition db_add (t : Table) (m : IngredientModel) : Table * IngredientModel :=
  let m' := match im_internal_id m with
            | Some _ => m
            | None => with_id m (Some (S (max_id t)))
            end in
  (t ++ [m'], m').

Fixpoint replace_first (p : IngredientModel -> bool) (m : IngredientModel) (t : Table)
    : Table :=
  match t with
  | [] => []
  | r :: rest => if p r then m :: rest else r :: replace_first p m rest
  end.

Definition set_active (r : IngredientModel) (b : bool) : IngredientModel :=
  {| im_internal_id := im_internal_id r; im_name := im_name r;
     im_price := im_price r; im_is_active := b; im_type := im_type r;
     im_applies_to_burger := im_applies_to_burger r;
     im_applies_to_side := im_applies_to_side r;
     im_applies_to_drink := im_applies_to_drink r;
     im_applies_to_dessert := im_applies_to_dessert r |}.

(** [_to_model] *)
Definition to_model (i : Ingredient) : IngredientModel :=
  mkIngredientModel (ing_internal_id i) (name_value (ing_name i)) (amount (ing_price i))
    (ing_is_active i) (IngredientType_value (ingredient_type i))
    (applies_to_burger i) (applies_to_side i) (applies_to_drink i)
    (applies_to_dessert i).

(** The four [applies_to_*] values [find_by_applies_usage] filters on:
    all [False] but the one of the category. *)
Definition applies_usage_fields (c : ProductCategory) : bool * bool * bool * bool :=
  match c with
  | BURGER => (true, false, false, false)
  | SIDE => (false, true, false, false)
  | DRINK => (false, false, true, false)
  | DESSERT => (false, false, false, true)
  end.

(** [find_all_by_multiple_fields] with those four values. *)
Definition matches_fields (f : bool * bool * bool * bool) (r : IngredientModel) : bool :=
  let '(b, s, d, ds) := f in
  Bool.eqb (im_applies_to_burger r) b && Bool.eqb (im_applies_to_side r) s
  && Bool.eqb (im_applies_to_drink r) d && Bool.eqb (im_applies_to_dessert r) ds.

Definition id_to_string (o : option nat) : string :=
  match o with Some k => nat_to_string k | None => "None" end.

Section Gateway.

Variable max_name_length : nat.

(** The check the [Ingredient] constructor runs on the type and the four
    flags (ingredient.py is missing). *)
Variable Ingredient_check :
  IngredientType -> bool -> bool -> bool -> bool -> result unit.

(** [_to_entity]: [Name.create], [Money(amount=...)] and
    [IngredientType(...)] in argument order, then the constructor. *)
Definition to_entity (m : IngredientModel) : outcome Ingredient :=
  let! n := lift (Name_create max_name_length (im_name m)) in
  let! p := lift (Money_create (im_price m)) in
  match IngredientType_of_value (im_type m) with
  | None => Raised (PyValueError ("'" ++ im_type m ++ "' is not a valid IngredientType")%string)
  | Some ty =>
      let! _ := lift (Ingredient_check ty (im_applies_to_burger m) (im_applies_to_side m)
                        (im_applies_to_drink m) (im_applies_to_dessert m)) in
      Done (mkIngredient (im_internal_id m) n p (im_is_active m) ty
              (im_applies_to_burger m) (im_applies_to_side m)
              (im_applies_to_drink m) (im_applies_to_dessert m))
  end.

(** [[self._to_entity(m) for m in rows]]: the first failing row raises. *)
Fixpoint to_entities (rows : Table) : outcome (list Ingredient) :=
  match rows with
  | [] => Done []
  | r :: rest =>
      let! i := to_entity r in
      let! is := to_entities rest in
      Done (i :: is)
  end.

(** [save]: commits, then converts the stored row. *)
Definition save (t : Table) (i : Ingredient) : outcome Ingredient * Table :=
  let insert := let (t', row) := db_add t (to_model i) in (to_entity row, t') in
  match ing_internal_id i with
  | Some (S k) =>
      match find (has_id (Some (S k))) t with
      | Some db =>
          let row := {| im_internal_id := im_internal_id db;
                        im_name := name_value (ing_name i);
                        im_price := amount (ing_price i);
                        im_is_active := ing_is_active i;
                        im_type := IngredientType_value (ingredient_type i);
                        im_applies_to_burger := applies_to_burger i;
                        im_applies_to_side := applies_to_side i;
                        im_applies_to_drink := applies_to_drink i;
                        im_applies_to_dessert := applies_to_dessert i |} in
          (to_entity row, replace_first (has_id (Some (S k))) row t)
      | None => insert
      end
  | _ => insert
  end.

Definition visible (include_inactive : bool) (r : IngredientModel) : bool :=
  include_inactive || im_is_active r.

(** [find_by_id] and [find_by_name]: the first row with the value. *)
Definition find_first (p : IngredientModel -> bool) (t : Table) (include_inactive : bool)
    : outcome (option Ingredient) :=
  match find p t with
  | None => Done None
  | Some r =>
      if visible include_inactive r
      then let! i := to_entity r in Done (Some i)
      else Done None
  end.

Definition find_by_id (t : Table) (id : option nat) (include_inactive : bool)
    : outcome (option Ingredient) :=
  find_first (has_id id) t include_inactive.

Definition find_by_name (t : Table) (name : string) (include_inactive : bool)
    : outcome (option Ingredient) :=
  find_first (has_name name) t include_inactive.

(** [find_by_type], [find_by_applies_usage], [find_all]: the inactive
    entities are dropped after the conversion of every selected row. *)
Definition keep_visible (include_inactive : bool) (is : list Ingredient)
    : list Ingredient :=
  if include_inactive then is else filter ing_is_active is.

Definition find_by_type (t : Table) (ty : IngredientType) (include_inactive : bool)
    : outcome (list Ingredient) :=
  let! is := to_entities (filter (has_type (IngredientType_value ty)) t) in
  Done (keep_visible include_inactive is).

Definition find_by_applies_usage (t : Table) (c : ProductCategory)
    (include_inactive : bool) : outcome (list Ingredient) :=
  let! is := to_entities (filter (matches_fields (applies_usage_fields c)) t) in
  Done (keep_visible include_inactive is).

Definition find_all (t : Table) (include_inactive : bool) : outcome (list Ingredient) :=
  to_entities (if include_inactive then t else filter im_is_active t).

(** [delete]: soft delete of the first row with the id. *)
Definition delete (t : Table) (id : nat) : bool * Table :=
  match find (has_id (Some id)) t with
  | None => (false, t)
  | Some r => (true, replace_first (has_id (Some id)) (set_active r false) t)
  end.

Definition exists_by_name (t : Table) (name : string) (include_inactive : bool) : bool :=
  match find (has_name name) t with
  | None => false
  | Some r => visible include_inactive r
  end.

Definition exists_by_type (t : Table) (ty : IngredientType) (include_inactive : bool)
    : bool :=
  match filter (has_type (IngredientType_value ty)) t with
  | [] => false
  | rows => if negb include_inactive then existsb im_is_active rows else true
  end.

(** [IngredientCreateUseCase.execute]; [request.price] is given as the
    decimal [Decimal(str(request.price))] reads. *)
Definition IngredientCreateUseCase_execute (t : Table) (name : string) (price : decimal)
    (is_active : bool) (ty : IngredientType) (burger side drink dessert : bool)
    : outcome Ingredient * Table :=
  let checked :=
    let! m := lift (Money_create price) in
    let! i := lift (Ingredient_create max_name_length name (Some m) is_active (Some ty)
                      burger side drink dessert None) in
    if exists_by_name t (name_value (ing_name i)) false
    then Raised (IngredientAlreadyExistsException
                   ("Ingredient with name " ++ name_value (ing_name i) ++ " already exists"))
    else Done i in
  match checked with
  | Raised e => (Raised e, t)
  | Done i => save t i
  end.

(** [IngredientReadUseCase.execute] *)
Definition IngredientReadUseCase_execute (t : Table) (id : nat) (include_inactive : bool)
    : outcome Ingredient :=
  let! found := find_by_id t (Some id) include_inactive in
  match found with
  | Some i => Done i
  | None => Raised (IngredientNotFoundException
                      ("Ingredient with internal_id " ++ nat_to_string id ++ " not found"))
  end.

(** [IngredientUpdateUseCase.execute] *)
Definition IngredientUpdateUseCase_execute (t : Table) (iid : option nat) (name : string)
    (price : decimal) (is_active : bool) (ty : IngredientType)
    (burger side drink dessert : bool) : outcome Ingredient * Table :=
  let checked :=
    let! m := lift (Money_create price) in
    let! i := lift (Ingredient_create max_name_length name (Some m) is_active (Some ty)
                      burger side drink dessert iid) in
    let! existing := find_by_id t (ing_internal_id i) true in
    match existing with
    | None => Raised (IngredientNotFoundException
                        ("Ingredient with internal_id " ++ id_to_string (ing_internal_id i)
                         ++ " not found"))
    | Some e =>
        if negb (String.eqb (name_value (ing_name e)) (name_value (ing_name i)))
           && exists_by_name t (name_value (ing_name i)) true
        then Raised (IngredientAlreadyExistsException
                       ("Ingredient with name " ++ name_value (ing_name i) ++ " already exists"))
        else Done i
    end in
  match checked with
  | Raised e => (Raised e, t)
  | Done i => save t i
  end.

(** [IngredientDeleteUseCase.execute] *)
Definition IngredientDeleteUseCase_execute (t : Table) (id : nat) : outcome bool * Table :=
  match find_by_id t (Some id) true with
  | Raised e => (Raised e, t)
  | Done None =>
      (Raised (IngredientNotFoundException
                 ("Ingredient with internal_id " ++ nat_to_string id ++ " not found")), t)
  | Done (Some _) => let (b, t') := delete t id in (Done b, t')
  end.

(** [IngredientListByAppliesToUseCase.execute]: the responses and their
    [total_count]. *)
Definition IngredientListByAppliesToUseCase_execute (t : Table) (c : ProductCategory)
    (include_inactive : bool) : outcome (list Ingredient * nat) :=
  let! is := find_by_applies_usage t c include_inactive in
  Done (is, length is).

End Gateway.

End IngredientGateway.

(* ------------------------------------------------------------------ *)
(** ** Sample ingredients of the initialisation script

    [create_sample_ingredients] (src/infra/scripts/init_db.py) over the
    ingredient gateway above; [sys.exit(1)] after an exception is the
    [Raised] outcome. *)

Module InitDb.

Import IngredientGateway.

(** One dict of [sample_ingredients]; the price is the literal handed to
    [Money.create]. *)
Record SampleIngredient : Type := mkSample {
  si_name : string;
  si_price : decimal;
  si_is_active : bool;
  si_type : IngredientType;
  si_burger : bool;
  si_side : bool;
  si_drink : bool;
  si_dessert : bool
}.

Definition sample_ingredients : list SampleIngredient :=
  [mkSample "Classic Bun" (mkDecimal 250 (-2)) true BREAD true false false false;
   mkSample "Whole Wheat Bun" (mkDecimal 300 (-2)) true BREAD true false false false;
   mkSample "Beef Patty" (mkDecimal 800 (-2)) true MEAT true false false false;
   mkSample "Chicken Breast" (mkDecimal 750 (-2)) true MEAT true false false false;
   mkSample "Veggie Patty" (mkDecimal 650 (-2)) true MEAT true false false false;
   mkSample "Cheddar Cheese" (mkDecimal 150 (-2)) true CHEESE true false false false;
   mkSample "Swiss Cheese" (mkDecimal 175 (-2)) true CHEESE true false false false;
   mkSample "Lettuce" (mkDecimal 50 (-2)) true VEGETABLE true true false false;
   mkSample "Tomato" (mkDecimal 75 (-2)) true VEGETABLE true true false false;
   mkSample "Onion" (mkDecimal 50 (-2)) true VEGETABLE true true false false;
   mkSample "Mixed Greens" (mkDecimal 100 (-2)) true SALAD true true false false;
   mkSample "Ketchup" (mkDecimal 25 (-2)) true SAUCE true true false false;
   mkSample "Mustard" (mkDecimal 25 (-2)) true SAUCE true true false false;
   mkSample "Mayonnaise" (mkDecimal 30 (-2)) true SAUCE true true false false;
   mkSample "Ice Cubes" (mkDecimal 10 (-2)) true ICE false false true false;
   mkSample "Whole Milk" (mkDecimal 100 (-2)) true MILK false false true false;
   mkSample "Almond Milk" (mkDecimal 150 (-2)) true MILK false false true false;
   mkSample "Chocolate Sprinkles" (mkDecimal 75 (-2)) true TOPPING false false false true;
   mkSample "Whipped Cream" (mkDecimal 50 (-2)) true TOPPING false false false true].

(** The [Money.create] calls of the list literal, all evaluated before the
    loop. *)
Fixpoint sample_prices (l : list SampleIngredient) : result (list Money) :=
  match l with
  | [] => Ok []
  | d :: rest =>
      let* m := Money_create (si_price d) in
      let* ms := sample_prices rest in
      Ok (m :: ms)
  end.

Section Seed.

Variable max_name_length : nat.
Variable Ingredient_check :
  IngredientType -> bool -> bool -> bool -> bool -> result unit.

(** The [for] loop: a name already present (and active) is skipped,
    otherwise [Ingredient.create] and [repository.save]. *)
Fixpoint seed_loop (t : Table) (items : list (SampleIngredient * Money))
    : outcome Table :=
  match items with
  | [] => Done t
  | (d, m) :: rest =>
      if exists_by_name t (si_name d) false
      then seed_loop t rest
      else
        match Ingredient_create max_name_length (si_name d) (Some m) (si_is_active d)
                (Some (si_type d)) (si_burger d) (si_side d) (si_drink d)
                (si_dessert d) None with
        | Err e => Raised (PyDomainError e)
        | Ok i =>
            match save max_name_length Ingredient_check t i with
            | (Raised e, _) => Raised e
            | (Done _, t') => seed_loop t' rest
            end
        end
  end.

(** [create_sample_ingredients] *)
Definition create_sample_ingredients (t : Table) : outcome Table :=
  match sample_prices sample_ingredients with
  | Err e => Raised (PyDomainError e)
  | Ok ms => seed_loop t (combine sample_ingredients ms)
  end.

End Seed.

End InitDb.

(* ================================================================== *)
(** * Properties *)

(** ** Helper lemmas *)

Lemma string_append_nil_r (s : string) : (s ++ "")%string = s.
Proof. induction s as [|a s IH]; simpl; [reflexivity|now rewrite IH]. Qed.

Lemma string_append_assoc (a b c : string) :
  (a ++ (b ++ c))%string = ((a ++ b) ++ c)%string.
Proof. induction a as [|x a IH]; simpl; [reflexivity|now rewrite IH]. Qed.

Lemma Name_create_error_kind (mnl : nat) (s : string) (e : DomainError) :
  Name_create mnl s = Err e -> exists m, e = ValidationError m.
Proof.
  unfold Name_create.
  destruct (String.eqb (strip s) ""); [intros [= <-]; eauto|].
  destruct (mnl <? String.length (strip s)); intros H; inversion H; eauto.
Qed.

Lemma must_apply_to_contains (x y : string) :
  str_contains ("Ingredient " ++ x ++ " must apply to " ++ y)%string
               ("apply to " ++ y)%string.
Proof.
  exists ("Ingredient " ++ x ++ " must ")%string, ""%string.
  rewrite string_append_nil_r. simpl. f_equal.
  rewrite <- string_append_assoc. reflexivity.
Qed.

Lemma check_receipt_ok (c : ProductCategory) (items : list ProductReceiptItem) :
  Forall (fun it => applies_to (ingredient it) c = true) items ->
  check_receipt c items = Ok tt.
Proof.
  induction 1 as [|it rest Hit _ IH]; simpl; [reflexivity|].
  now rewrite Hit.
Qed.

Lemma check_receipt_bad (c : ProductCategory) (items : list ProductReceiptItem) :
  (exists it, In it items /\ applies_to (ingredient it) c = false) ->
  exists m, check_receipt c items = Err (BusinessRuleError m)
            /\ str_contains m ("apply to " ++ ProductCategory_value c)%string.
Proof.
  induction items as [|it rest IH]; simpl.
  - intros (? & [] & _).
  - intros (it' & [<- | Hin] & Hbad).
    + rewrite Hbad. eexists; split; [reflexivity|].
      apply must_apply_to_contains.
    + destruct (applies_to (ingredient it) c); [|].
      * apply IH; eauto.
      * eexists; split; [reflexivity|].
        apply must_apply_to_contains.
Qed.

(** ** C1 *)

(** Counterexample to C1: the input of the repository test
    (test_entities.py, line 125): name "Sal", price 1.0, type bread,
    [applies_to_burger] and [applies_to_side] set. [Ingredient.create]
    raises a [BusinessRuleError] instead of succeeding. *)
Lemma C1_bread_side_rejected :
  Ingredient_create 100 "Sal" (Some (mkMoney (mkDecimal 1 0))) true (Some BREAD)
    true true false false None
  = Err (BusinessRuleError "Ingredient type bread cannot apply to side").
Proof. reflexivity. Qed.

(** C1 (amended): for each ingredient type among vegetable, salad and
    sauce, [Ingredient.create] with [applies_to_side = True] (and a
    compatible burger flag, no drink or dessert flag, a valid name and a
    price) succeeds and builds the ingredient from those fields; with type
    bread the same call raises a [BusinessRuleError] naming bread and
    side. *)
Theorem C1_side_flag_by_type (mnl : nat) (name : string) (n : Name)
    (p : Money) (active burger : bool) (iid : option nat)
    (Hn : Name_create mnl name = Ok n) :
  (forall t, In t [VEGETABLE; SALAD; SAUCE] ->
     Ingredient_create mnl name (Some p) active (Some t) burger true false false iid
     = Ok (mkIngredient iid n p active t burger true false false))
  /\ Ingredient_create mnl name (Some p) active (Some BREAD) burger true false false iid
     = Err (BusinessRuleError "Ingredient type bread cannot apply to side").
Proof.
  unfold Ingredient_create. rewrite Hn. simpl.
  rewrite orb_true_r. simpl. split.
  - intros t Ht.
    destruct Ht as [<-|[<-|[<-|[]]]]; destruct burger; reflexivity.
  - destruct burger; reflexivity.
Qed.

Lemma C1_witness :
  Name_create 100 "sal" = Ok (mkName "Sal")
  /\ Ingredient_create 100 "sal" (Some (mkMoney (mkDecimal 1 0))) true
       (Some SALAD) true true false false None
     = Ok (mkIngredient None (mkName "Sal") (mkMoney (mkDecimal 1 0)) true
             SALAD true true false false)
  /\ Ingredient_create 100 "sal" (Some (mkMoney (mkDecimal 1 0))) true
       (Some BREAD) true true false false None
     = Err (BusinessRuleError "Ingredient type bread cannot apply to side").
Proof.
  assert (Hn : Name_create 100 "sal" = Ok (mkName "Sal")) by reflexivity.
  split; [exact Hn|]. split.
  - apply (proj1 (C1_side_flag_by_type 100 "sal" (mkName "Sal")
                    (mkMoney (mkDecimal 1 0)) true true None Hn)).
    simpl; auto.
  - exact (proj2 (C1_side_flag_by_type 100 "sal" (mkName "Sal")
                    (mkMoney (mkDecimal 1 0)) true true None Hn)).
Defined.

(** ** C7 *)

(** C7: an ingredient created with [applies_to_drink = True] always has
    type ICE or MILK; and for any other type, with a valid name and a price,
    [Ingredient.create] with [applies_to_drink = True] fails with a
    [BusinessRuleError]. *)
Theorem C7_drink_flag_requires_ice_or_milk (mnl : nat) (name : string)
    (price : option Money) (active : bool) (ty : option IngredientType)
    (burger side dessert : bool) (iid : option nat) :
  (forall i, Ingredient_create mnl name price active ty burger side true dessert iid
             = Ok i ->
             ingredient_type i = ICE \/ ingredient_type i = MILK)
  /\ (forall n p t, Name_create mnl name = Ok n -> price = Some p -> ty = Some t ->
        t <> ICE -> t <> MILK ->
        exists m, Ingredient_create mnl name price active ty burger side true
                    dessert iid = Err (BusinessRuleError m)).
Proof.
  unfold Ingredient_create. split.
  - intros i. destruct (Name_create mnl name) as [n|e]; simpl; [|discriminate].
    destruct price as [p|]; [|discriminate].
    destruct ty as [t|]; [|discriminate].
    rewrite !orb_true_r. simpl.
    destruct t, burger, side, dessert; simpl; intros H; inversion H; auto.
  - intros n p t Hn -> -> Hi Hm. rewrite Hn. simpl.
    rewrite !orb_true_r. simpl.
    destruct t; try congruence; destruct burger, side, dessert; simpl; eauto.
Qed.

Lemma C7_witness :
  exists m, Ingredient_create 100 "sal" (Some (mkMoney (mkDecimal 1 0))) true
              (Some SAUCE) true false true false None
            = Err (BusinessRuleError m).
Proof.
  apply (proj2 (C7_drink_flag_requires_ice_or_milk 100 "sal"
                  (Some (mkMoney (mkDecimal 1 0))) true (Some SAUCE)
                  true false false None)
           (mkName "Sal") (mkMoney (mkDecimal 1 0)) SAUCE);
    [reflexivity | reflexivity | reflexivity | discriminate | discriminate].
Defined.

(** ** C8 *)

(** C8: [Product.create] with an empty [default_ingredient] fails with a
    [ValidationError] whatever the other arguments; with a valid name, price,
    category and SKU and a non-empty list of compatible receipt items it
    builds the product. *)
Theorem C8_product_requires_receipt_items :
  (forall mnl name price cat s active iid,
     exists m, Product_create mnl name price cat s [] active iid
               = Err (ValidationError m))
  /\ (forall mnl name n p c k items active iid,
        Name_create mnl name = Ok n -> items <> [] ->
        Forall (fun it => applies_to (ingredient it) c = true) items ->
        Product_create mnl name (Some p) (Some c) (Some k) items active iid
        = Ok (mkProduct iid n p c k items active)).
Proof.
  unfold Product_create. split.
  - intros mnl name price cat s active iid.
    destruct (Name_create mnl name) as [n|e] eqn:Hn; simpl.
    + destruct price, cat, s; simpl; unfold Product_new, Product_validate; simpl; eauto.
    + destruct (Name_create_error_kind _ _ _ Hn) as [m ->]. eauto.
  - intros mnl name n p c k items active iid Hn Hne Hall. rewrite Hn. simpl.
    unfold Product_new, Product_validate.
    destruct items as [|it rest]; [congruence|].
    rewrite (check_receipt_ok c (it :: rest) Hall). reflexivity.
Qed.

Definition sample_bread : Ingredient :=
  mkIngredient (Some 1) (mkName "Pao") (mkMoney (mkDecimal 100 (-2))) true
    BREAD true false false false.

Lemma C8_witness :
  Product_create 100 "prod" (Some (mkMoney (mkDecimal 1000 (-2)))) (Some BURGER)
    (Some (mkSKU "SKU-0001-ABC")) [mkReceiptItem sample_bread 1] true None
  = Ok (mkProduct None (mkName "Prod") (mkMoney (mkDecimal 1000 (-2))) BURGER
          (mkSKU "SKU-0001-ABC") [mkReceiptItem sample_bread 1] true).
Proof.
  apply (proj2 C8_product_requires_receipt_items);
    [reflexivity | discriminate | repeat constructor].
Defined.

(** ** C5 *)

(** C5: a DRINK product whose receipt holds an ingredient with
    [applies_to_drink = False] is refused by [Product.create] (valid name,
    price and SKU) with a [BusinessRuleError] whose message contains
    "apply to drink"; in general, for any category, one ingredient whose
    [applies_to_<category>] flag is false makes [Product.create] fail. *)
Theorem C5_drink_product_requires_drink_ingredients :
  (forall mnl name n p k items active iid,
     Name_create mnl name = Ok n ->
     (exists it, In it items /\ applies_to_drink (ingredient it) = false) ->
     exists m, Product_create mnl name (Some p) (Some DRINK) (Some k) items
                 active iid = Err (BusinessRuleError m)
               /\ str_contains m "apply to drink")
  /\ (forall mnl name price c s items active iid pr,
        (exists it, In it items /\ applies_to (ingredient it) c = false) ->
        Product_create mnl name price (Some c) s items active iid <> Ok pr).
Proof.
  unfold Product_create. split.
  - intros mnl name n p k items active iid Hn Hbad. rewrite Hn. simpl.
    destruct (check_receipt_bad DRINK items Hbad) as (m & Hm & Hc).
    unfold Product_new, Product_validate.
    destruct items as [|it rest]; [destruct Hbad as (? & [] & _)|].
    rewrite Hm. simpl. eauto.
  - intros mnl name price c s items active iid pr Hbad.
    destruct (check_receipt_bad c items Hbad) as (m & Hm & _).
    destruct (Name_create mnl name); simpl; [|discriminate].
    destruct price, s; simpl; try discriminate.
    unfold Product_new, Product_validate.
    destruct items as [|it rest]; [discriminate|].
    rewrite Hm. simpl. discriminate.
Qed.

Lemma C5_witness :
  exists m, Product_create 100 "juice" (Some (mkMoney (mkDecimal 500 (-2))))
              (Some DRINK) (Some (mkSKU "DRK-1234-AAA"))
              [mkReceiptItem sample_bread 1] true None
            = Err (BusinessRuleError m)
            /\ str_contains m "apply to drink".
Proof.
  apply (proj1 C5_drink_product_requires_drink_ingredients 100 "juice"%string
           (mkName "Juice")); [reflexivity|].
  exists (mkReceiptItem sample_bread 1). split; [left; reflexivity | reflexivity].
Defined.

(** ** C2 *)

Lemma msg_inactive : str_contains "Cannot delete inactive customer" "inactive".
Proof. exists "Cannot delete "%string, " customer"%string. reflexivity. Qed.

Lemma msg_without_id :
  str_contains "Cannot delete customer without ID" "without ID".
Proof. exists "Cannot delete customer "%string, ""%string. reflexivity. Qed.

Lemma msg_anonymous :
  str_contains "Cannot delete anonymous customer" "anonymous customer".
Proof. exists "Cannot delete "%string, ""%string. reflexivity. Qed.

Create HintDb soft_delete_msgs.
#[local] Hint Resolve msg_inactive msg_without_id msg_anonymous : soft_delete_msgs.

(** C2: [Customer.soft_delete] fails exactly when the customer is inactive,
    has no internal id or is the anonymous customer; it then raises a
    [BusinessRuleError] whose message names a guard that holds ("inactive",
    "without ID", "anonymous customer") and leaves the customer as it was.
    Otherwise it sets [is_active] to false, [first_name] to "Deleted", the
    e-mail to [deleted.<internal_id>@<domain>] and clears the document; a
    second call on the deleted customer raises the "inactive" error. *)
Theorem C2_soft_delete_guards (dom : string) (c : Customer) :
  (forall e, fst (soft_delete dom c) = Err e ->
     snd (soft_delete dom c) = c
     /\ exists m, e = BusinessRuleError m
          /\ ((is_active c = false /\ str_contains m "inactive")
              \/ (internal_id c = None /\ str_contains m "without ID")
              \/ (is_anonymous c = true /\ str_contains m "anonymous customer")))
  /\ ((exists e, fst (soft_delete dom c) = Err e) <->
      is_active c = false \/ internal_id c = None \/ is_anonymous c = true)
  /\ (forall id, is_active c = true -> internal_id c = Some id ->
        is_anonymous c = false ->
        soft_delete dom c =
        (Ok tt, {| internal_id := Some id;
                   first_name := mkName "Deleted";
                   last_name := last_name c;
                   email := mkEmail (deleted_email dom id);
                   document := mkDocument "";
                   is_active := false;
                   is_anonymous := false |}))
  /\ (fst (soft_delete dom c) = Ok tt ->
      exists m, fst (soft_delete dom (snd (soft_delete dom c)))
                = Err (BusinessRuleError m)
                /\ str_contains m "inactive").
Proof.
  destruct c as [iid fn ln em doc act anon]. unfold soft_delete. simpl.
  destruct act, iid as [id|], anon; simpl;
    repeat split; intros;
    repeat match goal with
           | H : Err _ = Err _ |- _ => inversion H; subst; clear H
           | H : Ok _ = Err _ |- _ => discriminate H
           | H : Err _ = Ok _ |- _ => discriminate H
           | H : true = false |- _ => discriminate H
           | H : false = true |- _ => discriminate H
           | H : None = Some _ |- _ => discriminate H
           | H : Some _ = Some _ |- _ => inversion H; subst; clear H
           | H : exists _, _ |- _ => destruct H
           | H : _ \/ _ |- _ => destruct H
           end;
    try solve [ eauto 6 with soft_delete_msgs | discriminate | reflexivity ].
Qed.

Lemma C2_witness :
  soft_delete "example.com"
    (mkCustomer (Some 10) (mkName "John") (mkName "Doe")
       (mkEmail "john.doe@example.com") (mkDocument "52998224725") true false)
  = (Ok tt, mkCustomer (Some 10) (mkName "Deleted") (mkName "Doe")
              (mkEmail "deleted.10@example.com") (mkDocument "") false false).
Proof.
  apply (proj1 (proj2 (proj2 (C2_soft_delete_guards "example.com"
           (mkCustomer (Some 10) (mkName "John") (mkName "Doe")
              (mkEmail "john.doe@example.com") (mkDocument "52998224725")
              true false)))) 10); reflexivity.
Defined.

(** ** C4 *)

(** C4: [can_place_order] holds exactly for an active anonymous customer or
    an active customer with a non-empty e-mail and a non-empty document, so
    never for an inactive one.  It is a pure function of the customer: it
    returns a boolean and no customer, so it mutates nothing. *)
Theorem C4_can_place_order_spec (c : Customer) :
  (can_place_order c = true <->
   (is_active c = true /\ is_anonymous c = true)
   \/ (is_active c = true /\ email_value (email c) <> ""%string
       /\ Document_is_empty (document c) = false))
  /\ (is_active c = false -> can_place_order c = false).
Proof.
  unfold can_place_order. split.
  - destruct (is_active c), (is_anonymous c); simpl;
      destruct (String.eqb_spec (email_value (email c)) ""%string);
      destruct (Document_is_empty (document c)); simpl;
      intuition congruence.
  - intros ->. reflexivity.
Qed.

(** ** C3 *)

(** C3: for a raw string with exactly 11 digits once the non-digits are
    removed, [Document.create] succeeds with a non-empty document when the
    digits are not all identical and both mod-11 check digits (over digits
    1-9 and 1-10) match the last two; it raises a [ValidationError] when the
    digits are all identical, and when the check digits do not match. *)
Theorem C3_document_create_11_digits (raw : string)
    (H11 : List.length (digit_chars raw) = 11) :
  (all_same (map digit_val (digit_chars raw)) = false ->
   check_digits_ok (map digit_val (digit_chars raw)) = true ->
   exists d, Document_create raw = Ok d /\ Document_is_empty d = false)
  /\ (all_same (map digit_val (digit_chars raw)) = true ->
      exists m, Document_create raw = Err (ValidationError m))
  /\ (check_digits_ok (map digit_val (digit_chars raw)) = false ->
      exists m, Document_create raw = Err (ValidationError m)).
Proof.
  assert (Hne : String.eqb raw "" = false).
  { destruct (String.eqb_spec raw ""); [subst; discriminate H11 | reflexivity]. }
  unfold Document_create. rewrite Hne, H11. simpl.
  split; [|split].
  - intros Hs Hc. rewrite Hs, Hc. simpl.
    eexists; split; [reflexivity|].
    unfold Document_is_empty. simpl.
    destruct (digit_chars raw); [discriminate H11 | reflexivity].
  - intros Hs. rewrite Hs. eauto.
  - intros Hc. destruct (all_same _); [eauto|]. rewrite Hc. simpl. eauto.
Qed.

Lemma C3_witness :
  exists d, Document_create "529.982.247-25" = Ok d
            /\ Document_is_empty d = false.
Proof.
  apply (proj1 (C3_document_create_11_digits "529.982.247-25" eq_refl));
    reflexivity.
Defined.

(** ** C9 *)

Lemma dec_eqb_refl (a : decimal) : dec_eqb a a = true.
Proof. unfold dec_eqb. apply Z.eqb_refl. Qed.

(** C9: [Money.create a] for [a >= 0] with at most 2 fractional digits
    succeeds and its [amount] equals [a] (Decimal [==]); a negative amount,
    and an amount with more than 2 fractional digits, raise a
    [ValidationError]. *)
Theorem C9_money_create_roundtrip (a : decimal) :
  ((0 <= coef a)%Z -> (frac_digits a <= 2)%Z ->
   exists m, Money_create a = Ok m /\ dec_eqb (amount m) a = true)
  /\ ((coef a < 0)%Z -> exists msg, Money_create a = Err (ValidationError msg))
  /\ ((2 < frac_digits a)%Z ->
      exists msg, Money_create a = Err (ValidationError msg)).
Proof.
  unfold Money_create, dec_negative. split; [|split].
  - intros Hpos Hfrac.
    replace (Z.ltb (coef a) 0) with false by (symmetry; apply Z.ltb_ge; lia).
    replace (Z.ltb 2 (frac_digits a)) with false by (symmetry; apply Z.ltb_ge; lia).
    eexists; split; [reflexivity | apply dec_eqb_refl].
  - intros Hneg. replace (Z.ltb (coef a) 0) with true by (symmetry; apply Z.ltb_lt; lia).
    eauto.
  - intros Hfrac. destruct (Z.ltb (coef a) 0); [eauto|].
    replace (Z.ltb 2 (frac_digits a)) with true by (symmetry; apply Z.ltb_lt; lia).
    eauto.
Qed.

Lemma C9_witness :
  exists m, Money_create (mkDecimal 250 (-2)) = Ok m
            /\ dec_eqb (amount m) (mkDecimal 250 (-2)) = true.
Proof.
  apply (proj1 (C9_money_create_roundtrip (mkDecimal 250 (-2))));
    unfold frac_digits; simpl; lia.
Defined.

(** ** C6 *)

(** C6: [Product.update] either fails and leaves every field of the product
    as it was, or succeeds, and then the product holds the new name, price,
    category, SKU and receipt items, each built by its value object's
    [create], keeps its id and active flag, and satisfies the Product
    invariants. *)
Theorem C6_product_update_atomic (mnl : nat) (p : Product) (name : string)
    (price : decimal) (cat s : string) (items : list ProductReceiptItem) :
  (forall e, fst (Product_update mnl p name price cat s items) = Err e ->
     snd (Product_update mnl p name price cat s items) = p)
  /\ (fst (Product_update mnl p name price cat s items) = Ok tt ->
      exists n m c k,
        Name_create mnl name = Ok n /\ Money_create price = Ok m
        /\ ProductCategory_of_value cat = Ok c /\ SKU_create s = Ok k
        /\ snd (Product_update mnl p name price cat s items)
           = mkProduct (prod_internal_id p) n m c k items (prod_is_active p)
        /\ Product_validate c items = Ok tt).
Proof.
  unfold Product_update, Product_new.
  destruct (Name_create mnl name) as [n|e1]; simpl;
    [|split; [reflexivity | discriminate]].
  destruct (Money_create price) as [m|e2]; simpl;
    [|split; [reflexivity | discriminate]].
  destruct (ProductCategory_of_value cat) as [c|e3]; simpl;
    [|split; [reflexivity | discriminate]].
  destruct (SKU_create s) as [k|e4]; simpl;
    [|split; [reflexivity | discriminate]].
  destruct (Product_validate c items) as [[]|e5] eqn:Hv; simpl;
    [|split; [reflexivity | discriminate]].
  split; [discriminate|].
  intros _. exists n, m, c, k. repeat split; assumption.
Qed.

Definition sample_salad : Ingredient :=
  mkIngredient (Some 2) (mkName "Alface") (mkMoney (mkDecimal 200 (-2))) true
    SALAD false true false false.

Definition sample_product : Product :=
  mkProduct (Some 7) (mkName "Prod") (mkMoney (mkDecimal 1000 (-2))) BURGER
    (mkSKU "SKU-0001-ABC") [mkReceiptItem sample_bread 1] true.

Lemma C6_witness :
  snd (Product_update 100 sample_product "Novo" (mkDecimal 2000 (-2)) "drink"
         "SKU-0002-DEF" [mkReceiptItem sample_salad 1]) = sample_product.
Proof.
  apply (proj1 (C6_product_update_atomic 100 sample_product "Novo"
           (mkDecimal 2000 (-2)) "drink" "SKU-0002-DEF"
           [mkReceiptItem sample_salad 1])
           (BusinessRuleError "Ingredient Alface must apply to drink")).
  reflexivity.
Defined.

(** ** C10 *)

Section CreateUseCase.

Context {R : Type} `{Repo : CustomerRepository R}.

(** Every customer handed to [save] by the create use case can place
    orders. *)
Lemma execute_saves_only_orderable (mnl : nat) (anon : string)
    (req : CustomerCreateRequest) (r : R) (c : Customer) :
  In (CallSave c) (snd (CustomerCreateUseCase_execute mnl anon req r)) ->
  can_place_order c = true.
Proof.
  destruct (Customer_create_registered mnl anon (req_first_name req)
              (req_last_name req) (req_email req) (req_document req) None true)
    as [cu|e] eqn:Hc.
  - unfold CustomerCreateUseCase_execute. rewrite Hc. simpl.
    unfold uc_bind, uc_exists_by_document, uc_exists_by_email, uc_raise,
      uc_ret, uc_save.
    destruct (negb (Document_is_empty (document cu)));
      [destruct (exists_by_document r (document_value (document cu)))|];
      (destruct (negb (String.eqb (email_value (email cu)) ""));
       [destruct (exists_by_email r (email_value (email cu)))|]);
      destruct (can_place_order cu) eqn:Hp; simpl;
      try destruct (save r cu); simpl;
      intros Hin; simpl in Hin;
      repeat match goal with
             | H : False |- _ => destruct H
             | H : _ \/ _ |- _ => destruct H as [H|H]
             | H : CallSave _ = CallSave _ |- _ => inversion H; subst; clear H
             | H : _ = CallSave _ |- _ => discriminate H
             end; assumption.
  - unfold CustomerCreateUseCase_execute. rewrite Hc. simpl.
    unfold uc_raise. simpl. intros [].
Qed.

(** C10: when [Customer.create_registered] builds the customer from the
    request and both uniqueness checks pass (no document or none stored,
    no e-mail or none stored), a customer with [can_place_order() = False]
    makes [CustomerCreateUseCase.execute] raise
    [CustomerBusinessRuleException], leave the repository state unchanged and
    never call [repository.save]. *)
Theorem C10_create_use_case_order_gate (mnl : nat) (anon : string)
    (req : CustomerCreateRequest) (r : R) (c : Customer)
    (Hc : Customer_create_registered mnl anon (req_first_name req)
            (req_last_name req) (req_email req) (req_document req) None true
          = Ok c)
    (Hdoc : Document_is_empty (document c) = true
            \/ exists_by_document r (document_value (document c)) = false)
    (Hmail : email_value (email c) = ""%string
             \/ exists_by_email r (email_value (email c)) = false)
    (Hno : can_place_order c = false) :
  exists msg calls,
    CustomerCreateUseCase_execute mnl anon req r
    = (inl (CustomerBusinessRuleException msg), r, calls)
    /\ forall c', ~ In (CallSave c') calls.
Proof.
  unfold CustomerCreateUseCase_execute. rewrite Hc. simpl.
  unfold uc_bind, uc_exists_by_document, uc_exists_by_email, uc_raise, uc_ret.
  rewrite Hno. simpl.
  destruct (Document_is_empty (document c)) eqn:He; simpl;
    [|destruct Hdoc as [Hd|Hd]; [discriminate Hd | rewrite Hd]];
    (destruct (String.eqb_spec (email_value (email c)) ""%string) as [Em|Em]; simpl;
     [|destruct Hmail as [Hm|Hm]; [contradiction | rewrite Hm]]);
    do 2 eexists; split; try reflexivity;
    simpl; intros c' Hin;
    repeat match goal with
           | H : False |- _ => destruct H
           | H : _ \/ _ |- _ => destruct H as [H|H]
           | H : _ = CallSave _ |- _ => discriminate H
           end.
Qed.

End CreateUseCase.

Lemma C10_witness :
  exists msg calls,
    CustomerCreateUseCase_execute 100 "anonymous@fastfood.com"
      (mkCustomerCreateRequest "Jane" "Smith" "jane@x.com" "") []
    = (inl (CustomerBusinessRuleException msg), [], calls)
    /\ forall c', ~ In (CallSave c') calls.
Proof.
  apply (C10_create_use_case_order_gate 100 "anonymous@fastfood.com"
           (mkCustomerCreateRequest "Jane" "Smith" "jane@x.com" "") []
           (mkCustomer None (mkName "Jane") (mkName "Smith")
              (mkEmail "jane@x.com") (mkDocument "") true false));
    [reflexivity | left; reflexivity | right; reflexivity | reflexivity].
Defined.

(** ** Scenarios of the spec, evaluated *)

Example document_bad_check_digits :
  Document_create "12345678901"
  = Err (ValidationError "Invalid document check digits").
Proof. reflexivity. Qed.

Example document_all_identical :
  Document_create "11111111111"
  = Err (ValidationError "Invalid document: all digits are equal").
Proof. reflexivity. Qed.

Example registered_jane_can_order :
  match Customer_create_registered 100 "anonymous@fastfood.com" "Jane" "Smith"
          "jane@x.com" "52998224725" None true with
  | Ok c => can_place_order c = true
  | Err _ => False
  end.
Proof. vm_compute. reflexivity. Qed.

Example ice_for_burger_refused :
  Ingredient_create 100 "gelo" (Some (mkMoney (mkDecimal 1 0))) true (Some ICE)
    true false false false None
  = Err (BusinessRuleError "Ingredient type ice cannot apply to burger").
Proof. reflexivity. Qed.

Example sku_samples :
  SKU_create "BURG-2024-CLS" = Ok (mkSKU "BURG-2024-CLS")
  /\ SKU_create "INVALID" = Err (ValidationError "Invalid SKU format").
Proof. split; reflexivity. Qed.

Example money_three_decimals :
  Money_create (mkDecimal 1234 (-3))
  = Err (ValidationError "Amount cannot have more than 2 decimal places").
Proof. reflexivity. Qed.

(* ------------------------------------------------------------------ *)
(** ** The API Gateway router ([infra/scripts/router.py]) *)

Section RouterFacts.
Import Router.

Lemma drop_slashes_nil_iff l :
  drop_slashes l = [] <-> forallb (fun c => Ascii.eqb c "/"%char) l = true.
Proof.
  induction l as [|c t IH]; simpl; [tauto|].
  destruct (Ascii.eqb c "/"%char); simpl; [exact IH|].
  split; discriminate.
Qed.

Lemma drop_slashes_head l c t :
  drop_slashes l = c :: t -> Ascii.eqb c "/"%char = false.
Proof.
  induction l as [|a l IH]; simpl; [discriminate|].
  case_eq (Ascii.eqb a "/"%char); intros Ha E; [auto|].
  injection E as <- _; exact Ha.
Qed.

Lemma drop_slashes_snoc l c :
  Ascii.eqb c "/"%char = false -> exists d, drop_slashes (l ++ [c]) = d ++ [c].
Proof.
  intro Hc. induction l as [|a l IH]; simpl.
  - rewrite Hc. exists []. reflexivity.
  - destruct (Ascii.eqb a "/"%char); [exact IH|].
    exists (a :: l). reflexivity.
Qed.

Lemma split_on_nonsep sep c t :
  Ascii.eqb c sep = false -> exists w ws, split_on sep (c :: t) = (c :: w) :: ws.
Proof.
  intro Hc. simpl. rewrite Hc.
  destruct (split_on sep t) as [|w ws]; eauto.
Qed.

Lemma service_name_empty_iff p :
  service_name_of p = ""%string <-> only_slashes p = true.
Proof.
  unfold service_name_of, strip_slashes, only_slashes.
  rewrite <- drop_slashes_nil_iff.
  case_eq (drop_slashes (list_ascii_of_string p)).
  - intros _. simpl. tauto.
  - intros c t E. pose proof (drop_slashes_head _ _ _ E) as Hc.
    simpl. destruct (drop_slashes_snoc (rev t) c Hc) as [d Ed].
    rewrite Ed, rev_app_distr. simpl.
    rewrite list_ascii_of_string_of_list_ascii.
    rewrite Hc. destruct (split_on "/"%char (rev d)); simpl; split; discriminate.
Qed.

Lemma existsb_eqb_In m l : existsb (String.eqb m) l = true <-> In m l.
Proof.
  rewrite existsb_exists. split.
  - intros [x [Hx E]]. apply String.eqb_eq in E. subst. exact Hx.
  - intros Hm. exists m. split; [exact Hm | apply String.eqb_refl].
Qed.

Lemma lambda_handler_with_given mapping env ev p :
  get_or_empty (path ev) = Some p ->
  lambda_handler_with mapping env ev =
  if String.eqb (service_name_of p) "" then error_response 400 "Invalid path format"
  else
    match dict_get mapping (service_name_of p) with
    | Some rc =>
        if route_config_truthy rc then
          (if negb (match get_or_empty (httpMethod ev) with
                    | Some m => existsb (String.eqb m)
                                  (match allowed_methods rc with Some l => l | None => [] end)
                    | None => false end)
           then error_response 405
                  ("Method " ++ py_str (get_or_empty (httpMethod ev))
                   ++ " not allowed for service '" ++ service_name_of p ++ "'")%string
           else success_response
                  (SuccessBody ("Request routed to " ++ py_str (handler rc))
                     (service_name_of p) (py_str (get_or_empty (httpMethod ev))) p
                     (match env with Some e => e | None => "dev" end)))
        else error_response 404 ("Service '" ++ service_name_of p ++ "' not found")%string
    | None => error_response 404 ("Service '" ++ service_name_of p ++ "' not found")%string
    end.
Proof. intro Hp. unfold lambda_handler_with. rewrite Hp. reflexivity. Qed.

(** X1: the two failures decided by the path alone. The handler answers
    500 exactly when the event's [path] is JSON null ([None.strip] raises
    and the catch-all turns it into a 500), and 400 exactly when the path
    is present (or absent, read as [""]) and made only of slashes. *)
Theorem router_path_errors mapping env ev :
  (statusCode (lambda_handler_with mapping env ev) = 500 <-> path ev = Null)
  /\ (statusCode (lambda_handler_with mapping env ev) = 400
      <-> exists p, get_or_empty (path ev) = Some p /\ only_slashes p = true).
Proof.
  case_eq (get_or_empty (path ev)).
  - intros p Hp. rewrite (lambda_handler_with_given mapping env ev p Hp).
    assert (path ev <> Null) by (intro E; rewrite E in Hp; discriminate).
    assert (Hex : (exists q, Some p = Some q /\ only_slashes q = true)
                  <-> service_name_of p = ""%string).
    { rewrite service_name_empty_iff. split.
      - intros [q [E Hq]]. injection E as <-. exact Hq.
      - intro. exists p. auto. }
    rewrite Hex.
    case_eq (String.eqb (service_name_of p) ""); intro Hs.
    + apply String.eqb_eq in Hs. simpl. split; [split; [discriminate|tauto]|].
      split; [intros _; exact Hs | reflexivity].
    + apply String.eqb_neq in Hs.
      destruct (dict_get mapping (service_name_of p)) as [rc|];
        [destruct (route_config_truthy rc);
         [destruct (negb _)|]|];
        simpl; split; split; intro; (discriminate || contradiction).
  - intros Hp. unfold lambda_handler_with. rewrite Hp. simpl.
    split; split; auto.
    + intros _. destruct (path ev); simpl in Hp; congruence.
    + discriminate.
    + intros [p [E _]]. discriminate.
Qed.

(** X2: once the path names a service, the status is decided by the route
    table and the method: 404 when the service has no entry or an empty
    (falsy) one, 200 when its entry is truthy and lists the request's method
    among [allowed_methods] (a null method is never allowed), and 405 in
    every other case. *)
Theorem router_dispatch_status mapping env ev p
  (Hp : get_or_empty (path ev) = Some p)
  (Hs : only_slashes p = false) :
  let r := lambda_handler_with mapping env ev in
  let s := service_name_of p in
  (statusCode r = 404 <->
     forall rc, dict_get mapping s = Some rc -> route_config_truthy rc = false)
  /\ (statusCode r = 200 <->
     exists rc m, dict_get mapping s = Some rc /\ route_config_truthy rc = true
       /\ get_or_empty (httpMethod ev) = Some m
       /\ In m (match allowed_methods rc with Some l => l | None => [] end))
  /\ (statusCode r = 405 <->
     exists rc, dict_get mapping s = Some rc /\ route_config_truthy rc = true
       /\ forall m, get_or_empty (httpMethod ev) = Some m ->
          ~ In m (match allowed_methods rc with Some l => l | None => [] end)).
Proof.
  cbv zeta. rewrite (lambda_handler_with_given mapping env ev p Hp).
  assert (Hne : String.eqb (service_name_of p) "" = false).
  { apply String.eqb_neq. rewrite service_name_empty_iff. congruence. }
  rewrite Hne.
  destruct (dict_get mapping (service_name_of p)) as [rc|] eqn:Hd.
  - case_eq (route_config_truthy rc); intro Ht.
    + set (allowed := match allowed_methods rc with Some l => l | None => [] end).
      destruct (get_or_empty (httpMethod ev)) as [m|] eqn:Hm.
      * case_eq (existsb (String.eqb m) allowed); intro He; simpl.
        -- assert (Hin : In m allowed) by (apply existsb_eqb_In; exact He).
           split; [split; [discriminate| intro H; specialize (H rc eq_refl); congruence]|].
           split; [split; [intros _; exists rc, m; auto | reflexivity]|].
           split; [discriminate|].
           intros [rc' [E [_ Hn]]]. injection E as <-. destruct (Hn m eq_refl Hin).
        -- assert (Hnin : ~ In m allowed)
             by (intro H; apply existsb_eqb_In in H; congruence).
           split; [split; [discriminate| intro H'; specialize (H' rc eq_refl); congruence]|].
           split; [split; [discriminate|]|].
           ++ intros [rc' [m' [E [_ [E' Hi]]]]]. injection E as <-.
              injection E' as <-. contradiction.
           ++ split; [intros _; exists rc; split; [reflexivity|split; [exact Ht|]] | reflexivity].
              intros m' E'. injection E' as <-. exact Hnin.
      * simpl.
        split; [split; [discriminate| intro H'; specialize (H' rc eq_refl); congruence]|].
        split; [split; [discriminate|]|].
        -- intros [rc' [m' [_ [_ [E' _]]]]]. discriminate.
        -- split; [intros _; exists rc; split; [reflexivity|split; [exact Ht|]] | reflexivity].
           intros m' E'. discriminate.
    + simpl. split; [split; [intros _ rc' E; injection E as <-; exact Ht | reflexivity]|].
      split; split; try discriminate.
      * intros [rc' [m' [E [Ht' _]]]]. injection E as <-. congruence.
      * intros [rc' [E [Ht' _]]]. injection E as <-. congruence.
  - simpl. split; [split; [intros _ rc' E; discriminate | reflexivity]|].
    split; split; try discriminate.
    * intros [rc' [m' [E _]]]. discriminate.
    * intros [rc' [E _]]. discriminate.
Qed.

(** X3: a routed request (status 200) answers with the service named by
    the first path segment, the request's method and the path as received
    (not stripped), and the [ENVIRONMENT] variable, ["dev"] when unset. *)
Theorem router_success_body mapping env ev
  (H200 : statusCode (lambda_handler_with mapping env ev) = 200) :
  exists p rc m,
    get_or_empty (path ev) = Some p
    /\ dict_get mapping (service_name_of p) = Some rc
    /\ get_or_empty (httpMethod ev) = Some m
    /\ body (lambda_handler_with mapping env ev)
       = SuccessBody ("Request routed to " ++ py_str (handler rc))
           (service_name_of p) m p
           (match env with Some e => e | None => "dev"%string end).
Proof.
  revert H200. case_eq (get_or_empty (path ev)).
  - intros p Hp. rewrite (lambda_handler_with_given mapping env ev p Hp).
    destruct (String.eqb (service_name_of p) ""); [simpl; discriminate|].
    destruct (dict_get mapping (service_name_of p)) as [rc|] eqn:Hd;
      [|simpl; discriminate].
    destruct (route_config_truthy rc); [|simpl; discriminate].
    destruct (get_or_empty (httpMethod ev)) as [m|]; simpl; [|discriminate].
    destruct (existsb _ _); simpl; [|discriminate].
    intros _. exists p, rc, m. auto.
  - intro Hp. unfold lambda_handler_with. rewrite Hp. simpl. discriminate.
Qed.

(** X4: every response the handler builds, error or success, carries the
    JSON content type and the open CORS header. *)
Theorem router_headers_always_cors mapping env ev :
  headers (lambda_handler_with mapping env ev)
  = [("Content-Type", "application/json"); ("Access-Control-Allow-Origin", "*")]%string.
Proof.
  unfold lambda_handler_with.
  destruct (get_or_empty (path ev)); [|reflexivity].
  destruct (String.eqb _ _); [reflexivity|].
  destruct (dict_get _ _) as [rc|]; [|reflexivity].
  destruct (route_config_truthy rc); [|reflexivity].
  destruct (negb _); reflexivity.
Qed.

(** X5: with the route table as shipped (all entries commented out) the
    handler routes nothing: a null path gives 500, a path of slashes only
    gives 400, and every other path gives 404, whatever the method. *)
Theorem router_shipped_table_routes_nothing env ev :
  statusCode (lambda_handler env ev)
  = match get_or_empty (path ev) with
    | None => 500
    | Some p => if only_slashes p then 400 else 404
    end.
Proof.
  unfold lambda_handler. case_eq (get_or_empty (path ev)).
  - intros p Hp. rewrite (lambda_handler_with_given ROUTE_MAPPING env ev p Hp).
    case_eq (only_slashes p); intro Hs.
    + apply service_name_empty_iff in Hs. rewrite Hs. reflexivity.
    + assert (Hne : String.eqb (service_name_of p) "" = false).
      { apply String.eqb_neq. rewrite service_name_empty_iff. congruence. }
      rewrite Hne. reflexivity.
  - intro Hp. unfold lambda_handler_with. rewrite Hp. reflexivity.
Qed.

End RouterFacts.

Lemma router_dispatch_status_witness :
  Router.get_or_empty (Router.path (Router.mkEvent (Router.JStr "PUT") (Router.JStr "/users/7/") Router.Missing))
    = Some "/users/7/"%string
  /\ Router.only_slashes "/users/7/" = false
  /\ Router.statusCode (Router.lambda_handler_with Router.EXAMPLE_ROUTE_MAPPING None
        (Router.mkEvent (Router.JStr "PUT") (Router.JStr "/users/7/") Router.Missing)) = 405.
Proof.
  split; [reflexivity|]. split; [reflexivity|].
  pose proof (router_dispatch_status Router.EXAMPLE_ROUTE_MAPPING None
    (Router.mkEvent (Router.JStr "PUT") (Router.JStr "/users/7/") Router.Missing)
    "/users/7/" eq_refl eq_refl) as [_ [_ [_ H405]]].
  apply H405. exists (Router.mkRouteConfig (Some ["GET"; "POST"]%string) (Some "users-service"%string) false).
  split; [reflexivity|]. split; [reflexivity|].
  intros m E. injection E as <-. simpl. intuition discriminate.
Defined.

Lemma router_success_body_witness :
  Router.statusCode (Router.lambda_handler_with Router.EXAMPLE_ROUTE_MAPPING None
      (Router.mkEvent (Router.JStr "GET") (Router.JStr "/orders/7") Router.Missing)) = 200
  /\ exists p rc m,
       Router.get_or_empty (Router.JStr "/orders/7") = Some p
       /\ Router.dict_get Router.EXAMPLE_ROUTE_MAPPING (Router.service_name_of p) = Some rc
       /\ Router.get_or_empty (Router.JStr "GET") = Some m
       /\ Router.body (Router.lambda_handler_with Router.EXAMPLE_ROUTE_MAPPING None
            (Router.mkEvent (Router.JStr "GET") (Router.JStr "/orders/7") Router.Missing))
          = Router.SuccessBody ("Request routed to " ++ Router.py_str (Router.handler rc))
              (Router.service_name_of p) m p "dev".
Proof.
  split; [reflexivity|].
  apply (router_success_body Router.EXAMPLE_ROUTE_MAPPING None
    (Router.mkEvent (Router.JStr "GET") (Router.JStr "/orders/7") Router.Missing)).
  reflexivity.
Defined.

(* ------------------------------------------------------------------ *)
(** ** The SQL product gateway and the product use cases *)

Section ProductGatewayFacts.
Import ProductGateway.

Lemma receipt_of_json_no_repository js : receipt_of_json None js = [].
Proof. induction js as [|[iid oid q|] rest IH]; simpl; auto. Qed.

Lemma receipt_to_json_idless items :
  (forall it, In it items -> id_truthy (ing_internal_id (ingredient it)) = false) ->
  receipt_to_json items = [].
Proof.
  induction items as [|it rest IH]; simpl; intro Hall; [reflexivity|].
  pose proof (Hall it (or_introl eq_refl)) as Hit.
  destruct (ing_internal_id (ingredient it)) as [[|k]|]; simpl in Hit;
    try discriminate; apply IH; auto.
Qed.

Lemma Product_new_fields iid n m c s items active p :
  Product_new iid n m c s items active = Ok p ->
  prod_internal_id p = iid /\ prod_is_active p = active /\ category p = c.
Proof.
  unfold Product_new. destruct (Product_validate c items); simpl; [|discriminate].
  intro E. injection E as <-. auto.
Qed.

Lemma to_entity_fields mnl repo m p :
  to_entity mnl repo m = Done p ->
  prod_internal_id p = pm_internal_id m /\ prod_is_active p = pm_is_active m.
Proof.
  unfold to_entity. destruct (receipt_of_json repo (pm_default_ingredient m)) as [|it rest];
    [discriminate|].
  destruct (Name_create mnl (pm_name m)) as [n|]; simpl; [|discriminate].
  destruct (Money_create (pm_price m)) as [pr|]; simpl; [|discriminate].
  destruct (ProductCategory_of_value (pm_category m)) as [c|]; simpl; [|discriminate].
  destruct (SKU_create (pm_sku m)) as [s|]; simpl; [|discriminate].
  destruct (Product_new _ _ _ _ _ _ _) as [q|] eqn:E; [|discriminate].
  intro D. injection D as <-. apply Product_new_fields in E. tauto.
Qed.

Lemma Product_update_keeps_id mnl p name price cat s items u p' :
  Product_update mnl p name price cat s items = (Ok u, p') ->
  prod_internal_id p' = prod_internal_id p.
Proof.
  unfold Product_update.
  destruct (Name_create mnl name) as [n|]; simpl;
    [|intro E; inversion E].
  destruct (Money_create price) as [m|]; simpl;
    [|intro E; inversion E].
  destruct (ProductCategory_of_value cat) as [c|]; simpl;
    [|intro E; inversion E].
  destruct (SKU_create s) as [k|]; simpl;
    [|intro E; inversion E].
  destruct (Product_new _ _ _ _ _ _ _) as [q|] eqn:Hq;
    [|intro E; inversion E].
  intro E. injection E as _ <-. apply Product_new_fields in Hq. tauto.
Qed.

Lemma find_replace_first (f : ProductModel -> bool) m t r :
  find f t = Some r -> f m = true -> find f (replace_first f m t) = Some m.
Proof.
  induction t as [|x rest IH]; simpl; [discriminate|].
  destruct (f x) eqn:Fx; intros E Hm; simpl.
  - rewrite Hm. reflexivity.
  - rewrite Fx. apply IH; assumption.
Qed.

(** X6: the receipt survives a store and load. Encoding a receipt and
    decoding it with an ingredient repository that resolves every stored
    id to that ingredient gives back the receipt minus the items whose
    ingredient has no (truthy) [internal_id], in order and with their
    quantities. *)
Theorem receipt_json_roundtrip (find_ing : nat -> option Ingredient)
  (items : list ProductReceiptItem)
  (Hres : forall it k, In it items -> ing_internal_id (ingredient it) = Some (S k) ->
          find_ing (S k) = Some (ingredient it)) :
  receipt_of_json (Some find_ing) (receipt_to_json items)
  = filter (fun it => id_truthy (ing_internal_id (ingredient it))) items.
Proof.
  induction items as [|it rest IH]; simpl; [reflexivity|].
  assert (IH' : receipt_of_json (Some find_ing) (receipt_to_json rest)
                = filter (fun it => id_truthy (ing_internal_id (ingredient it))) rest)
    by (apply IH; intros; eapply Hres; eauto; right; assumption).
  destruct (ing_internal_id (ingredient it)) as [[|k]|] eqn:Hid; simpl; try exact IH'.
  rewrite (Hres it k (or_introl eq_refl) Hid). rewrite IH'.
  destruct it as [ing q]. reflexivity.
Qed.

(** X7: without an ingredient repository (the optional constructor
    argument left out), no stored product can be read back: [_to_entity]
    always raises "Product must have a default ingredient", [find_by_id]
    answers [None] and [find_all] the empty list. *)
Theorem product_gateway_needs_ingredient_repository mnl (t : Table) m id b :
  to_entity mnl None m
    = Raised (conversion_error "Product must have a default ingredient")
  /\ find_by_id mnl None t id b = None
  /\ find_all mnl None t b = [].
Proof.
  assert (Hent : forall r, to_entity mnl None r
            = Raised (conversion_error "Product must have a default ingredient"))
    by (intro r; unfold to_entity; rewrite receipt_of_json_no_repository; reflexivity).
  split; [apply Hent|]. split.
  - unfold find_by_id, row_to_entity. destruct (find _ t) as [r|]; [|reflexivity].
    rewrite Hent. destruct (visible b r); reflexivity.
  - unfold find_all, row_to_entity.
    induction (if b then t else filter pm_is_active t) as [|r rest IH]; simpl;
      [reflexivity|]. rewrite Hent. exact IH.
Qed.

(** X8: [save] commits before it converts the row back. A new product none
    of whose receipt ingredients has a (truthy) [internal_id] is stored with
    an empty [default_ingredient] array, and the call then raises
    [ValueError]: the caller sees an error while the row stays in the
    table. *)
Theorem product_save_stores_then_raises mnl repo (t : Table) (p : Product)
  (Hnew : prod_internal_id p = None)
  (Hids : forall it, In it (default_ingredient p) ->
          id_truthy (ing_internal_id (ingredient it)) = false) :
  exists row,
    save mnl repo t p
    = (Raised (conversion_error "Product must have a default ingredient"), t ++ [row])
    /\ pm_sku row = sku_value (sku p) /\ pm_default_ingredient row = [].
Proof.
  unfold save. rewrite Hnew.
  assert (Hj : receipt_to_json (default_ingredient p) = [])
    by (apply receipt_to_json_idless; exact Hids).
  unfold db_add, to_model. rewrite Hnew. simpl.
  eexists. split.
  - unfold row_to_entity, to_entity. simpl. rewrite Hj. reflexivity.
  - split; reflexivity.
Qed.

(** X9: [delete] is a soft delete. It answers [False] exactly when no row
    has the id, and then leaves the table as it was; otherwise the row
    stays in the table ([exists_by_id] with [include_inactive=True]) but
    [find_by_id] without inactive rows no longer returns it. *)
Theorem product_delete_soft mnl repo (t : Table) (id : nat) :
  (fst (delete t id) = false <-> find (has_id id) t = None)
  /\ (fst (delete t id) = false -> snd (delete t id) = t)
  /\ (fst (delete t id) = true ->
      find_by_id mnl repo (snd (delete t id)) id false = None
      /\ exists_by_id (snd (delete t id)) id true = true).
Proof.
  unfold delete. destruct (find (has_id id) t) as [r|] eqn:Hf; simpl.
  - split; [split; discriminate|]. split; [discriminate|]. intros _.
    assert (Hr : has_id id (set_active r false) = true)
      by (apply find_some in Hf; destruct Hf as [_ Hf]; exact Hf).
    pose proof (find_replace_first (has_id id) (set_active r false) t r Hf Hr) as E.
    unfold find_by_id, exists_by_id. rewrite E. split; reflexivity.
  - split; [tauto|]. split; [reflexivity|discriminate].
Qed.

(** X10: a stored product row that can no longer be converted to an entity
    (for instance because one of its ingredients stopped applying to its
    category) can be neither updated nor deleted: both use cases raise
    [ProductNotFoundException] and leave the table unchanged, although the
    row is there. *)
Theorem product_unreadable_row_is_stuck mnl repo (t : Table) (id : nat) r e
  (Hf : find (has_id id) t = Some r)
  (He : to_entity mnl repo r = Raised e) :
  let nf := ProductNotFoundException
              ("Product with internal_id " ++ nat_to_string id ++ " not found") in
  ProductDeleteUseCase_execute mnl repo t id = (Raised nf, t)
  /\ forall name price cat s items,
     ProductUpdateUseCase_execute mnl repo t id name price cat s items = (Raised nf, t).
Proof.
  assert (Hn : find_by_id mnl repo t id true = None).
  { unfold find_by_id, row_to_entity. rewrite Hf, He. simpl. reflexivity. }
  split.
  - unfold ProductDeleteUseCase_execute. rewrite Hn. reflexivity.
  - intros. unfold ProductUpdateUseCase_execute. rewrite Hn. reflexivity.
Qed.

(** X11: a soft-deleted product's SKU can be taken again. When the row
    [find_by_field] returns for the SKU is inactive, [exists_by_sku] (which
    skips inactive rows) answers [False], so [ProductCreateUseCase] stores
    a new row: the table then holds two rows with that SKU. *)
Theorem product_create_reuses_deleted_sku mnl repo (t : Table) (p : Product) r
  (Hnew : prod_internal_id p = None)
  (Hr : find (has_sku (sku_value (sku p))) t = Some r)
  (Hinactive : pm_is_active r = false) :
  exists row,
    snd (ProductCreateUseCase_execute mnl repo t (Ok p)) = t ++ [row]
    /\ pm_sku row = pm_sku r.
Proof.
  unfold ProductCreateUseCase_execute, exists_by_sku. rewrite Hr.
  unfold visible. rewrite Hinactive. simpl.
  unfold save. rewrite Hnew. unfold db_add, to_model. rewrite Hnew. simpl.
  eexists. split; [reflexivity|]. simpl.
  apply find_some in Hr. destruct Hr as [_ Hr]. unfold has_sku in Hr.
  apply String.eqb_eq in Hr. symmetry. exact Hr.
Qed.

Lemma has_id_internal_id id r : has_id id r = true -> pm_internal_id r = Some id.
Proof.
  unfold has_id. destruct (pm_internal_id r) as [j|]; [|discriminate].
  intro E. apply Nat.eqb_eq in E. subst. reflexivity.
Qed.

Lemma find_by_id_row mnl repo t id b p :
  find_by_id mnl repo t id b = Some p ->
  exists r, find (has_id id) t = Some r /\ prod_internal_id p = Some id.
Proof.
  unfold find_by_id, row_to_entity.
  destruct (find (has_id id) t) as [r|] eqn:Hf; [|discriminate].
  destruct (visible b r); [|discriminate].
  destruct (to_entity mnl repo r) as [q|] eqn:He; [|discriminate].
  intro E. injection E as <-. exists r. split; [reflexivity|].
  apply to_entity_fields in He. destruct He as [-> _].
  apply find_some in Hf. apply has_id_internal_id. tauto.
Qed.

Lemma replace_first_length (f : ProductModel -> bool) m t :
  length (replace_first f m t) = length t.
Proof. induction t as [|x rest IH]; simpl; [|destruct (f x); simpl]; auto. Qed.

Lemma replace_first_other (f : ProductModel -> bool) m t i r :
  nth_error t i = Some r -> f r = false -> nth_error (replace_first f m t) i = Some r.
Proof.
  revert i. induction t as [|x rest IH]; intros i; simpl.
  - destruct i; discriminate.
  - destruct (f x) eqn:Fx; destruct i as [|i]; simpl; auto.
    intros E Hr. injection E as ->. congruence.
Qed.

Lemma save_existing mnl repo t p k db :
  prod_internal_id p = Some (S k) -> find (has_id (S k)) t = Some db ->
  exists row, snd (save mnl repo t p) = replace_first (has_id (S k)) row t.
Proof.
  intros Hp Hf. unfold save. rewrite Hp, Hf. eexists. reflexivity.
Qed.

Lemma ProductCategory_of_value_inv s c :
  ProductCategory_of_value s = Ok c -> ProductCategory_value c = s.
Proof.
  unfold ProductCategory_of_value.
  destruct (String.eqb_spec s "burger"); [intro E; injection E as <-; auto|].
  destruct (String.eqb_spec s "side"); [intro E; injection E as <-; auto|].
  destruct (String.eqb_spec s "drink"); [intro E; injection E as <-; auto|].
  destruct (String.eqb_spec s "dessert"); [intro E; injection E as <-; auto|].
  discriminate.
Qed.

Lemma ProductCategory_eqb_eq a b : ProductCategory_eqb a b = true -> a = b.
Proof. destruct a, b; simpl; congruence. Qed.

Lemma find_all_active mnl repo t p :
  In p (find_all mnl repo t false) -> prod_is_active p = true.
Proof.
  unfold find_all, row_to_entity. rewrite in_flat_map.
  intros [r [Hr Hp]]. apply filter_In in Hr. destruct Hr as [_ Ha].
  destruct (to_entity mnl repo r) as [q|] eqn:He; simpl in Hp; [|contradiction].
  destruct Hp as [<-|[]]. apply to_entity_fields in He. destruct He as [_ ->].
  exact Ha.
Qed.

(** X12: [ProductUpdateUseCase] touches at most the row it was asked to
    update. Whatever the outcome, the table keeps its length, and every row
    with another id stays where it was, unchanged (for the positive ids the
    database hands out). *)
Theorem product_update_touches_only_its_row mnl repo (t : Table) (id : nat)
  name price cat s items
  (Hid : id <> 0) :
  let t' := snd (ProductUpdateUseCase_execute mnl repo t id name price cat s items) in
  length t' = length t
  /\ forall i r, nth_error t i = Some r -> has_id id r = false -> nth_error t' i = Some r.
Proof.
  cbv zeta. unfold ProductUpdateUseCase_execute.
  destruct (find_by_id mnl repo t id true) as [p|] eqn:Hfb; [|simpl; auto].
  destruct (find_by_id_row _ _ _ _ _ _ Hfb) as [db [Hf Hpid]].
  destruct (Product_update mnl p name price cat s items) as [[u|e] p'] eqn:Hu;
    [|simpl; auto].
  apply Product_update_keeps_id in Hu. rewrite Hpid in Hu.
  destruct id as [|k]; [congruence|].
  destruct (save_existing mnl repo t p' k db Hu Hf) as [row Hs].
  assert (Hgoal : length (snd (save mnl repo t p')) = length t
                  /\ forall i r, nth_error t i = Some r -> has_id (S k) r = false ->
                     nth_error (snd (save mnl repo t p')) i = Some r).
  { rewrite Hs. split; [apply replace_first_length|].
    intros i r. apply replace_first_other. }
  destruct (save mnl repo t p') as [[?|?] t'] eqn:Hsave;
  destruct (find_by_sku mnl repo t (sku p') true) as [q|];
    try destruct (negb _); simpl in *; auto.
Qed.

(** X13: [ProductListByCategoryUseCase] rejects a string that is not a
    category value with [ProductValidationException], and otherwise lists
    only products of that category; with [include_inactive=False] they are
    all active. *)
Theorem product_list_by_category mnl repo (t : Table) (cat : string) (b : bool) :
  (forall e, ProductCategory_of_value cat = Err e ->
     ProductListByCategoryUseCase_execute mnl repo t cat b
     = Raised (ProductValidationException ("Invalid category: " ++ cat)))
  /\ (forall ps, ProductListByCategoryUseCase_execute mnl repo t cat b = Done ps ->
      forall p, In p ps ->
      ProductCategory_value (category p) = cat /\ (b = false -> prod_is_active p = true)).
Proof.
  unfold ProductListByCategoryUseCase_execute.
  destruct (ProductCategory_of_value cat) as [c|] eqn:Hc.
  - split; [discriminate|].
    intros ps E p Hp. injection E as <-. apply filter_In in Hp.
    destruct Hp as [Hp Heq]. apply ProductCategory_eqb_eq in Heq. subst c.
    split; [apply ProductCategory_of_value_inv; exact Hc|].
    intros ->. eapply find_all_active. exact Hp.
  - split; [reflexivity|discriminate].
Qed.

End ProductGatewayFacts.

Definition bread_without_id : Ingredient :=
  mkIngredient None (mkName "Pao") (mkMoney (mkDecimal 100 (-2))) true
    BREAD true false false false.

Definition find_sample_ingredient (k : nat) : option Ingredient :=
  match k with 1 => Some sample_bread | 2 => Some sample_salad | _ => None end.

(** A stored burger whose receipt names the salad (side-only) ingredient. *)
Definition sample_row (active : bool) : ProductGateway.ProductModel :=
  ProductGateway.mkProductModel (Some 7) "Prod" (mkDecimal 1000 (-2)) "burger"
    "SKU-0001-ABC" [ProductGateway.JDict (Some 2) None (Some 1%Z)] active.

Definition sample_new_burger (items : list ProductReceiptItem) : Product :=
  mkProduct None (mkName "Prod") (mkMoney (mkDecimal 1000 (-2))) BURGER
    (mkSKU "SKU-0001-ABC") items true.

Lemma receipt_json_roundtrip_witness :
  ProductGateway.receipt_of_json (Some find_sample_ingredient)
    (ProductGateway.receipt_to_json
       [mkReceiptItem sample_bread 2; mkReceiptItem bread_without_id 1])
  = filter (fun it => ProductGateway.id_truthy (ing_internal_id (ingredient it)))
      [mkReceiptItem sample_bread 2; mkReceiptItem bread_without_id 1].
Proof.
  apply receipt_json_roundtrip.
  intros it k [<-|[<-|[]]] E; simpl in E; [|discriminate].
  injection E as <-. reflexivity.
Defined.

Lemma product_save_stores_then_raises_witness :
  exists row,
    ProductGateway.save 100 (Some find_sample_ingredient) []
      (sample_new_burger [mkReceiptItem bread_without_id 1])
    = (ProductGateway.Raised
         (ProductGateway.conversion_error "Product must have a default ingredient"),
       [] ++ [row])
    /\ ProductGateway.pm_sku row = "SKU-0001-ABC"%string
    /\ ProductGateway.pm_default_ingredient row = [].
Proof.
  apply (product_save_stores_then_raises 100 (Some find_sample_ingredient) []
           (sample_new_burger [mkReceiptItem bread_without_id 1])).
  - reflexivity.
  - intros it [<-|[]]. reflexivity.
Defined.

Lemma product_unreadable_row_is_stuck_witness :
  let nf := ProductGateway.ProductNotFoundException
              ("Product with internal_id " ++ nat_to_string 7 ++ " not found") in
  ProductGateway.ProductDeleteUseCase_execute 100 (Some find_sample_ingredient)
    [sample_row true] 7 = (ProductGateway.Raised nf, [sample_row true])
  /\ forall name price cat s items,
     ProductGateway.ProductUpdateUseCase_execute 100 (Some find_sample_ingredient)
       [sample_row true] 7 name price cat s items
     = (ProductGateway.Raised nf, [sample_row true]).
Proof.
  eapply (product_unreadable_row_is_stuck 100 (Some find_sample_ingredient)
            [sample_row true] 7 (sample_row true)).
  - reflexivity.
  - vm_compute. reflexivity.
Defined.

Lemma product_create_reuses_deleted_sku_witness :
  exists row,
    snd (ProductGateway.ProductCreateUseCase_execute 100 (Some find_sample_ingredient)
           [sample_row false] (Ok (sample_new_burger [mkReceiptItem sample_bread 1])))
    = [sample_row false] ++ [row]
    /\ ProductGateway.pm_sku row = ProductGateway.pm_sku (sample_row false).
Proof.
  apply (product_create_reuses_deleted_sku 100 (Some find_sample_ingredient)
           [sample_row false] (sample_new_burger [mkReceiptItem sample_bread 1])
           (sample_row false)); reflexivity.
Defined.

Lemma product_update_touches_only_its_row_witness :
  let t' := snd (ProductGateway.ProductUpdateUseCase_execute 100
                   (Some find_sample_ingredient)
                   [ProductGateway.set_active (sample_row true) true; sample_row false]
                   7 "Novo" (mkDecimal 2000 (-2)) "side" "SKU-0002-DEF"
                   [mkReceiptItem sample_salad 1]) in
  length t' = length [ProductGateway.set_active (sample_row true) true; sample_row false]
  /\ forall i r,
     nth_error [ProductGateway.set_active (sample_row true) true; sample_row false] i = Some r ->
     ProductGateway.has_id 7 r = false -> nth_error t' i = Some r.
Proof.
  apply product_update_touches_only_its_row. discriminate.
Defined.

(* ------------------------------------------------------------------ *)
(** ** The SQL customer gateway and the customer update / delete use cases *)

Section CustomerGatewayFacts.
Import CustomerGateway.

Lemma count_value_split f v (p : CustomerModel -> bool) t :
  count_value f v t
  = count_value f v (filter p t) + count_value f v (filter (fun r => negb (p r)) t).
Proof.
  induction t as [|r rest IH]; [reflexivity|].
  cbn [count_value filter]. destruct (p r); cbn [negb count_value]; rewrite IH; lia.
Qed.

Lemma filter_neg_replace_first (p : CustomerModel -> bool) m t :
  p m = true ->
  filter (fun r => negb (p r)) (replace_first p m t) = filter (fun r => negb (p r)) t.
Proof.
  intro Hm. induction t as [|r rest IH]; simpl; [reflexivity|].
  destruct (p r) eqn:Hr; simpl.
  - rewrite Hm. reflexivity.
  - rewrite Hr. simpl. rewrite IH. reflexivity.
Qed.

Lemma in_replace_first (p : CustomerModel -> bool) m t r :
  find p t = Some r -> In m (replace_first p m t).
Proof.
  induction t as [|x rest IH]; simpl; [discriminate|].
  destruct (p x); [left; reflexivity|]. intro E. right. apply IH. exact E.
Qed.

Lemma find_replace_first_c (p : CustomerModel -> bool) m t r :
  find p t = Some r -> p m = true -> find p (replace_first p m t) = Some m.
Proof.
  induction t as [|x rest IH]; simpl; [discriminate|].
  destruct (p x) eqn:Px; intros E Hm; simpl.
  - rewrite Hm. reflexivity.
  - rewrite Px. apply IH; assumption.
Qed.

Lemma count_value_app f v l1 l2 :
  count_value f v (l1 ++ l2) = count_value f v l1 + count_value f v l2.
Proof. induction l1 as [|r rest IH]; simpl; [reflexivity|]. rewrite IH. lia. Qed.

Lemma count_value_pos f v x t :
  In x t -> f x = Some v -> 1 <= count_value f v t.
Proof.
  induction t as [|r rest IH]; simpl; [contradiction|].
  intros [<-|Hx] Hf.
  - rewrite Hf, String.eqb_refl. lia.
  - specialize (IH Hx Hf). lia.
Qed.

Lemma column_unique_count f t x v :
  column_unique f t = true -> In x t -> f x = Some v -> count_value f v t <= 1.
Proof.
  unfold column_unique. rewrite forallb_forall. intros H Hx Hf.
  specialize (H x Hx). rewrite Hf in H. apply Nat.leb_le. exact H.
Qed.

(** Two rows with the same non-NULL value in a unique column make the
    commit fail. *)
Lemma commit_duplicate (p : CustomerModel -> bool) t x y v :
  In x (filter (fun r => negb (p r)) t) -> In y (filter p t) ->
  cm_document x = Some v -> cm_document y = Some v -> commit t = None.
Proof.
  intros Hx Hy Ex Ey. unfold commit.
  destruct (column_unique cm_email t); simpl; [|reflexivity].
  destruct (column_unique cm_document t) eqn:Hu; [|reflexivity].
  exfalso.
  pose proof (count_value_pos _ _ _ _ Hx Ex).
  pose proof (count_value_pos _ _ _ _ Hy Ey).
  apply filter_In in Hy. destruct Hy as [Hy _].
  pose proof (column_unique_count _ _ _ _ Hu Hy Ey) as Hle.
  rewrite (count_value_split cm_document v p t) in Hle. lia.
Qed.

Lemma has_id_internal_id_c id r : has_id id r = true -> cm_internal_id r = Some id.
Proof.
  unfold has_id. destruct (cm_internal_id r) as [j|]; [|discriminate].
  intro E. apply Nat.eqb_eq in E. subst. reflexivity.
Qed.

Lemma to_entity_internal_id mnl r c :
  to_entity mnl r = Ok c -> internal_id c = cm_internal_id r.
Proof.
  unfold to_entity.
  destruct (Name_create mnl (cm_first_name r)); simpl; [|discriminate].
  destruct (Name_create mnl (cm_last_name r)); simpl; [|discriminate].
  destruct (Email_create _); simpl; [|discriminate].
  destruct (Document_create _); simpl; [|discriminate].
  intro E. injection E as <-. reflexivity.
Qed.

(** The row [delete] writes back after a successful soft delete. *)
Lemma delete_success mnl dom t id t1 :
  delete mnl dom t id = (Done true, t1) ->
  exists r row, find (has_id id) t = Some r
    /\ t1 = replace_first (has_id id) row t
    /\ cm_internal_id row = cm_internal_id r
    /\ cm_document row = Some ""%string.
Proof.
  unfold delete. destruct (find (has_id id) t) as [r|] eqn:Hf; [|discriminate].
  destruct (to_entity mnl r) as [c|] eqn:He; [|discriminate].
  unfold soft_delete.
  destruct (is_active c); simpl; [|discriminate].
  destruct (internal_id c) as [k|]; [|discriminate].
  destruct (is_anonymous c); [discriminate|].
  match goal with
  | |- match commit (replace_first _ ?row _) with _ => _ end = _ -> _ =>
      destruct (commit (replace_first (has_id id) row t)) as [t'|] eqn:Hc;
      [|discriminate]; intro E; injection E as ->;
      exists r, row
  end.
  unfold commit in Hc.
  destruct (_ && _); [|discriminate]. injection Hc as <-.
  repeat split.
Qed.

(** X14: the [document] column is unique and [delete] writes the cleared
    document as [""] rather than NULL. Once one customer has been
    soft-deleted, deleting any other customer can no longer succeed: the
    commit meets a second [""] and raises [IntegrityError] (or the id is
    missing, or a guard refuses first). *)
Theorem customer_second_soft_delete_fails mnl dom (t t1 : Table) (a b : nat)
  (Ha : delete mnl dom t a = (Done true, t1))
  (Hab : a <> b) :
  fst (delete mnl dom t1 b) <> Done true.
Proof.
  destruct (delete_success _ _ _ _ _ Ha) as [ra [rowa [Hfa [-> [Hida Hdoca]]]]].
  assert (Hina : In rowa (filter (fun r => negb (has_id b r))
                            (replace_first (has_id a) rowa t))).
  { apply filter_In. split; [eapply in_replace_first; exact Hfa|].
    apply find_some in Hfa. destruct Hfa as [_ Hfa].
    apply has_id_internal_id_c in Hfa. unfold has_id. rewrite Hida, Hfa.
    apply Nat.eqb_neq in Hab. rewrite Hab. reflexivity. }
  set (t1 := replace_first (has_id a) rowa t) in *.
  intro Hb.
  assert (Hb' : exists t2, delete mnl dom t1 b = (Done true, t2)).
  { destruct (delete mnl dom t1 b) as [o t2]. simpl in Hb. subst. eauto. }
  destruct Hb' as [t2 Hb2]. clear Hb.
  (* re-run the second delete up to its commit *)
  revert Hb2. unfold delete.
  destruct (find (has_id b) t1) as [rb|] eqn:Hfb; [|discriminate].
  destruct (to_entity mnl rb) as [c|] eqn:He; [|discriminate].
  pose proof (to_entity_internal_id _ _ _ He) as Hidc.
  unfold soft_delete.
  destruct (is_active c); simpl; [|discriminate].
  destruct (internal_id c) as [k|] eqn:Hk; [|discriminate].
  destruct (is_anonymous c); [discriminate|].
  match goal with
  | |- match commit (replace_first _ ?row _) with _ => _ end = _ -> _ =>
      assert (Hrow : has_id b row = true);
      [| rewrite (commit_duplicate (has_id b) (replace_first (has_id b) row t1)
                    rowa row ""%string); [discriminate| | | exact Hdoca | reflexivity]]
  end.
  - unfold has_id. simpl. apply find_some in Hfb. destruct Hfb as [_ Hfb].
    exact Hfb.
  - rewrite filter_neg_replace_first by exact Hrow. exact Hina.
  - apply filter_In. split; [eapply in_replace_first; exact Hfb | exact Hrow].
Qed.

(** X15: [CustomerDeleteUseCase] refuses without touching the table when
    the id is unknown ([CustomerNotFoundException]) and when the stored
    customer is anonymous or already inactive: the anonymous customer is
    never deleted, and no customer is deleted twice. *)
Theorem customer_delete_refusals mnl dom (t : Table) (id : nat) :
  (find (has_id id) t = None ->
   CustomerDeleteUseCase_execute mnl dom t id
   = (Raised (CustomerNotFoundException
                ("Customer with internal_id " ++ nat_to_string id ++ " not found")), t))
  /\ (forall r, find (has_id id) t = Some r ->
      cm_is_anonymous r = true \/ cm_is_active r = false ->
      exists e, CustomerDeleteUseCase_execute mnl dom t id = (Raised e, t)).
Proof.
  split.
  - intro Hf. unfold CustomerDeleteUseCase_execute, delete. rewrite Hf. reflexivity.
  - intros r Hf Hr. unfold CustomerDeleteUseCase_execute, delete. rewrite Hf.
    destruct (to_entity mnl r) as [c|] eqn:He; [|eexists; reflexivity].
    assert (Hc : is_anonymous c = cm_is_anonymous r /\ is_active c = cm_is_active r).
    { revert He. unfold to_entity.
      destruct (Name_create mnl (cm_first_name r)); simpl; [|discriminate].
      destruct (Name_create mnl (cm_last_name r)); simpl; [|discriminate].
      destruct (Email_create _); simpl; [|discriminate].
      destruct (Document_create _); simpl; [|discriminate].
      intro E. injection E as <-. auto. }
    destruct Hc as [Han Hac]. unfold soft_delete. rewrite Hac, Han.
    destruct Hr as [-> | ->]; simpl.
    + destruct (cm_is_active r); simpl; [|eexists; reflexivity].
      destruct (internal_id c); eexists; reflexivity.
    + eexists; reflexivity.
Qed.

Lemma outcome_bind_done {A B} (o : outcome A) (k : A -> outcome B) x :
  outcome_bind o k = Done x -> exists a, o = Done a /\ k a = Done x.
Proof. destruct o as [a|e]; simpl; [eauto|discriminate]. Qed.

Lemma find_app_none {A} (p : A -> bool) l1 l2 :
  find p l1 = None -> find p (l1 ++ l2) = find p l2.
Proof.
  induction l1 as [|x rest IH]; simpl; [reflexivity|].
  destruct (p x); [discriminate|exact IH].
Qed.

Lemma commit_some t t' : commit t = Some t' -> t' = t.
Proof. unfold commit. destruct (_ && _); [congruence|discriminate]. Qed.

Lemma Customer_create_registered_fields mnl ae f l e d iid act c :
  Customer_create_registered mnl ae f l e d iid act = Ok c ->
  internal_id c = iid /\ is_active c = act /\ is_anonymous c = false.
Proof.
  unfold Customer_create_registered.
  destruct (Name_create mnl f); simpl; [|discriminate].
  destruct (Name_create mnl l); simpl; [|discriminate].
  destruct (Email_create e); simpl; [|discriminate].
  destruct (Document_create d); simpl; [|discriminate].
  unfold Customer_new. simpl.
  destruct (String.eqb _ ""); [discriminate|].
  intro E. injection E as <-. auto.
Qed.

Lemma find_row_some mnl p t b q :
  find_row mnl p t b = Done (Some q) -> exists r, find p t = Some r.
Proof.
  unfold find_row. destruct (find p t) as [r|]; [eauto|discriminate].
Qed.

(** X16: a successful [CustomerUpdateUseCase] leaves the customer's row
    active and not anonymous, whatever it was before: updating a
    soft-deleted customer reactivates it, and updating the anonymous
    customer turns it into a registered one. *)
Theorem customer_update_reactivates mnl ae (t t' : Table) (k : nat)
  first last em doc (c' : Customer)
  (H : CustomerUpdateUseCase_execute mnl ae t (Some (S k)) first last em doc
       = (Done c', t')) :
  exists r, find (has_id (S k)) t' = Some r
    /\ cm_is_active r = true /\ cm_is_anonymous r = false.
Proof.
  unfold CustomerUpdateUseCase_execute in H. cbv zeta in H.
  destruct (outcome_bind _ _) as [c|e] eqn:Hch in H; [|discriminate].
  apply outcome_bind_done in Hch. destruct Hch as [c0 [Hc0 Hch]].
  destruct (Customer_create_registered mnl ae first last em doc (Some (S k)) true)
    as [c1|] eqn:Hcr; simpl in Hc0; [|discriminate].
  injection Hc0 as <-.
  destruct (Customer_create_registered_fields _ _ _ _ _ _ _ _ _ Hcr) as [Hid [Hact Han]].
  rewrite Hid in Hch.
  apply outcome_bind_done in Hch. destruct Hch as [existing [Hex Hch]].
  apply outcome_bind_done in Hch. destruct Hch as [u [Hu Hch]].
  destruct existing as [q|]; [|discriminate].
  destruct (find_row_some _ _ _ _ _ Hex) as [db Hdb].
  assert (Hc : c = c1).
  { repeat (apply outcome_bind_done in Hch; destruct Hch as [? [_ Hch]]).
    injection Hch as <-. reflexivity. }
  subst c. unfold save in H. rewrite Hid, Hdb in H. simpl in H.
  match type of H with
  | match commit (replace_first _ ?row _) with _ => _ end = _ =>
      destruct (commit (replace_first (has_id (S k)) row t)) as [t1|] eqn:Hcm;
      [|discriminate]; injection H as _ <-;
      apply commit_some in Hcm; subst t1; exists row
  end.
  split; [|simpl; split; assumption].
  apply find_replace_first_c with db; [exact Hdb|].
  apply find_some in Hdb. destruct Hdb as [_ Hdb]. unfold has_id in *. simpl. exact Hdb.
Qed.

(** X17: [get_anonymous_customer] is idempotent: a second call returns
    what the first returned and leaves the table as the first left it. *)
Theorem get_anonymous_customer_idempotent mnl ae afn aln (t : Table) :
  let (o, t1) := get_anonymous_customer mnl ae afn aln t in
  get_anonymous_customer mnl ae afn aln t1 = (o, t1).
Proof.
  unfold get_anonymous_customer.
  destruct (find cm_is_anonymous t) as [r|] eqn:Hf.
  - rewrite Hf. reflexivity.
  - unfold db_add. simpl.
    destruct (commit _) as [t'|] eqn:Hc.
    + pose proof (commit_some _ _ Hc) as E. subst t'. simpl.
      rewrite (find_app_none _ _ _ Hf). reflexivity.
    + simpl. rewrite Hf, Hc. reflexivity.
Qed.

(** X18: the anonymous customer cannot be created once a registered
    customer holds the sentinel e-mail: with no anonymous row yet and the
    sentinel already in the (unique) [email] column,
    [get_anonymous_customer] raises [IntegrityError] and adds nothing. *)
Theorem get_anonymous_customer_blocked_by_sentinel mnl ae afn aln (t : Table) r
  (Hnone : find cm_is_anonymous t = None)
  (Hin : In r t)
  (Hmail : cm_email r = Some ae)
  (Hae : ae <> ""%string) :
  get_anonymous_customer mnl ae afn aln t = (Raised IntegrityError, t).
Proof.
  unfold get_anonymous_customer. rewrite Hnone. unfold db_add. simpl.
  set (row := with_id (to_model (Customer_create_anonymous ae afn aln None)) (S (max_id t))).
  assert (Hrow : cm_email row = Some ae).
  { simpl. unfold nullable. apply String.eqb_neq in Hae. rewrite Hae. reflexivity. }
  assert (Hc : commit (t ++ [row]) = None).
  { unfold commit.
    destruct (column_unique cm_email (t ++ [row])) eqn:Hu; [|reflexivity]. exfalso.
    assert (H2 : 2 <= count_value cm_email ae (t ++ [row])).
    { rewrite count_value_app.
      pose proof (count_value_pos cm_email ae r t Hin Hmail).
      pose proof (count_value_pos cm_email ae row [row] (or_introl eq_refl) Hrow).
      lia. }
    assert (Hr : In r (t ++ [row])) by (apply in_or_app; left; exact Hin).
    pose proof (column_unique_count _ _ _ _ Hu Hr Hmail). lia. }
  rewrite Hc. reflexivity.
Qed.

End CustomerGatewayFacts.

Definition cust_row1 : CustomerGateway.CustomerModel :=
  CustomerGateway.mkCustomerModel (Some 1) "Jane" "Smith" (Some "jane@x.com"%string)
    (Some "52998224725"%string) false true.

Definition cust_row2 : CustomerGateway.CustomerModel :=
  CustomerGateway.mkCustomerModel (Some 2) "John" "Doe" (Some "john@x.com"%string)
    (Some "11144477735"%string) false true.

(** The row [delete] leaves for customer 1. *)
Definition cust_row1_deleted : CustomerGateway.CustomerModel :=
  CustomerGateway.mkCustomerModel (Some 1) "Deleted" "Smith"
    (Some "deleted.1@example.com"%string) (Some ""%string) false false.

Lemma customer_second_soft_delete_fails_witness :
  CustomerGateway.delete 100 "example.com" [cust_row1; cust_row2] 1
  = (CustomerGateway.Done true,
     snd (CustomerGateway.delete 100 "example.com" [cust_row1; cust_row2] 1))
  /\ fst (CustomerGateway.delete 100 "example.com"
            (snd (CustomerGateway.delete 100 "example.com" [cust_row1; cust_row2] 1)) 2)
     <> CustomerGateway.Done true.
Proof.
  split; [vm_compute; reflexivity|].
  apply (customer_second_soft_delete_fails 100 "example.com" [cust_row1; cust_row2]
           (snd (CustomerGateway.delete 100 "example.com" [cust_row1; cust_row2] 1)) 1 2).
  - vm_compute. reflexivity.
  - discriminate.
Defined.

Lemma customer_update_reactivates_witness :
  exists r, find (CustomerGateway.has_id 1) [cust_row1] = Some r
    /\ CustomerGateway.cm_is_active r = true
    /\ CustomerGateway.cm_is_anonymous r = false.
Proof.
  apply (customer_update_reactivates 100 "anonymous@fastfood.com" [cust_row1_deleted]
           [cust_row1] 0 "Jane" "Smith" "jane@x.com" "52998224725"
           (mkCustomer (Some 1) (mkName "Jane") (mkName "Smith") (mkEmail "jane@x.com")
              (mkDocument "52998224725") true false)).
  vm_compute. reflexivity.
Defined.

Lemma get_anonymous_customer_blocked_by_sentinel_witness :
  CustomerGateway.get_anonymous_customer 100 "anonymous@fastfood.com" "Anonymous"
    "Customer"
    [CustomerGateway.mkCustomerModel (Some 1) "Jane" "Smith"
       (Some "anonymous@fastfood.com"%string) None false true]
  = (CustomerGateway.Raised CustomerGateway.IntegrityError,
     [CustomerGateway.mkCustomerModel (Some 1) "Jane" "Smith"
        (Some "anonymous@fastfood.com"%string) None false true]).
Proof.
  apply (get_anonymous_customer_blocked_by_sentinel 100 "anonymous@fastfood.com"
           "Anonymous" "Customer" _
           (CustomerGateway.mkCustomerModel (Some 1) "Jane" "Smith"
              (Some "anonymous@fastfood.com"%string) None false true)).
  - reflexivity.
  - left. reflexivity.
  - reflexivity.
  - discriminate.
Defined.

Example second_delete_integrity_error :
  snd (CustomerGateway.delete 100 "example.com" [cust_row1; cust_row2] 1)
    = [cust_row1_deleted; cust_row2]
  /\ CustomerGateway.delete 100 "example.com" [cust_row1_deleted; cust_row2] 2
     = (CustomerGateway.Raised CustomerGateway.IntegrityError,
        [cust_row1_deleted; cust_row2]).
Proof. split; vm_compute; reflexivity. Qed.

(* ------------------------------------------------------------------ *)
(** ** Ingredient gateway and use cases *)

Section IngredientGatewayFacts.

Import IngredientGateway.

Variable mnl : nat.
Variable chk : IngredientType -> bool -> bool -> bool -> bool -> result unit.

Lemma ing_to_entity_fields r i :
  to_entity mnl chk r = Done i ->
  ing_internal_id i = im_internal_id r /\ ing_is_active i = im_is_active r
  /\ applies_to_burger i = im_applies_to_burger r
  /\ applies_to_side i = im_applies_to_side r
  /\ applies_to_drink i = im_applies_to_drink r
  /\ applies_to_dessert i = im_applies_to_dessert r
  /\ IngredientType_of_value (im_type r) = Some (ingredient_type i).
Proof.
  unfold to_entity, outcome_bind, lift. intros H.
  destruct (Name_create _ _); [|discriminate].
  destruct (Money_create _); [|discriminate].
  destruct (IngredientType_of_value _) eqn:Ht; [|discriminate].
  destruct (chk _ _ _ _ _); [|discriminate].
  inversion H; subst; simpl. repeat split; assumption.
Qed.

Lemma to_entities_in rows is :
  to_entities mnl chk rows = Done is ->
  forall i, In i is -> exists r, In r rows /\ to_entity mnl chk r = Done i.
Proof.
  revert is. induction rows as [|a rest IH]; simpl; intros is H i Hi.
  - inversion H; subst. contradiction.
  - unfold outcome_bind in H at 1.
    destruct (to_entity mnl chk a) eqn:Ha; [|discriminate].
    destruct (to_entities mnl chk rest) eqn:Hr; simpl in H; [|discriminate].
    inversion H; subst. destruct Hi as [<-|Hi].
    + exists a. auto.
    + destruct (IH _ eq_refl i Hi) as [r [Hin Hc]]. exists r. auto.
Qed.

Lemma keep_visible_in inc is i :
  In i (keep_visible inc is) -> In i is /\ (inc = false -> ing_is_active i = true).
Proof.
  unfold keep_visible. destruct inc.
  - intros H. split; [exact H|discriminate].
  - intros H. apply filter_In in H as [H1 H2]. auto.
Qed.

Lemma matches_fields_one_hot c r :
  matches_fields (applies_usage_fields c) r = true ->
  im_applies_to_burger r = ProductGateway.ProductCategory_eqb BURGER c
  /\ im_applies_to_side r = ProductGateway.ProductCategory_eqb SIDE c
  /\ im_applies_to_drink r = ProductGateway.ProductCategory_eqb DRINK c
  /\ im_applies_to_dessert r = ProductGateway.ProductCategory_eqb DESSERT c.
Proof.
  destruct r as [? ? ? ? ? b s d ds]; simpl.
  destruct b, s, d, ds, c; simpl; intros H; try discriminate; repeat split.
Qed.

Lemma IngredientType_of_value_inv ty ty' :
  IngredientType_of_value (IngredientType_value ty) = Some ty' -> ty' = ty.
Proof. destruct ty; simpl; intros H; inversion H; reflexivity. Qed.

Lemma ing_Ingredient_create_id name p a ty b s d ds iid i :
  Ingredient_create mnl name p a ty b s d ds iid = Ok i -> ing_internal_id i = iid.
Proof.
  unfold Ingredient_create. intros H.
  destruct (Name_create _ _); cbn [bind] in H; [|discriminate].
  destruct p; [|discriminate]. destruct ty; [|discriminate].
  destruct (negb _); [discriminate|].
  destruct (check_flags _ _); cbn [bind] in H; [|discriminate].
  inversion H; reflexivity.
Qed.

Lemma ing_find_replace_first (f : IngredientModel -> bool) m t r :
  find f t = Some r -> f m = true -> find f (replace_first f m t) = Some m.
Proof.
  induction t as [|x rest IH]; simpl; [discriminate|].
  destruct (f x) eqn:Fx; intros E Hm; simpl.
  - rewrite Hm. reflexivity.
  - rewrite Fx. apply IH; assumption.
Qed.

Lemma ing_replace_first_idem (f : IngredientModel -> bool) m t :
  f m = true -> replace_first f m (replace_first f m t) = replace_first f m t.
Proof.
  intros Hm. induction t as [|x rest IH]; simpl; [reflexivity|].
  destruct (f x) eqn:Fx; simpl.
  - rewrite Hm. reflexivity.
  - rewrite Fx, IH. reflexivity.
Qed.

Lemma ing_find_some (f : IngredientModel -> bool) t r :
  find f t = Some r -> f r = true.
Proof.
  induction t as [|x rest IH]; simpl; [discriminate|].
  destruct (f x) eqn:Fx; [intros H; inversion H; subst; exact Fx|exact IH].
Qed.

Lemma ing_to_entity_set_active r i b :
  to_entity mnl chk r = Done i ->
  to_entity mnl chk (set_active r b)
  = Done {| ing_internal_id := ing_internal_id i; ing_name := ing_name i;
            ing_price := ing_price i; ing_is_active := b;
            ingredient_type := ingredient_type i;
            applies_to_burger := applies_to_burger i;
            applies_to_side := applies_to_side i;
            applies_to_drink := applies_to_drink i;
            applies_to_dessert := applies_to_dessert i |}.
Proof.
  unfold to_entity, outcome_bind, lift. destruct r; simpl. intros H.
  destruct (Name_create _ _); [|discriminate].
  destruct (Money_create _); [|discriminate].
  destruct (IngredientType_of_value _); [|discriminate].
  destruct (chk _ _ _ _ _); [|discriminate].
  inversion H; subst; reflexivity.
Qed.

Lemma max_id_fresh t : find (has_id (Some (S (max_id t)))) t = None.
Proof.
  assert (Hb : forall n, max_id t < n -> find (has_id (Some n)) t = None).
  { induction t as [|x rest IH]; simpl; intros n Hn; [reflexivity|].
    unfold has_id at 1. destruct (im_internal_id x) as [j|] eqn:Hj.
    - destruct (Nat.eqb_spec j n); [lia|]. apply IH. lia.
    - apply IH. lia. }
  apply Hb. lia.
Qed.

(** X19: [IngredientListByAppliesToUseCase.execute] lists only ingredients
    whose four [applies_to_*] flags are exactly the one-hot vector of the
    requested category: an ingredient that applies to two categories is
    never listed, for either of them. Without [include_inactive] every
    listed ingredient is active, and [total_count] is the length of the
    list. *)
Theorem ingredient_list_by_applies_to_one_hot t c inc l n :
  IngredientListByAppliesToUseCase_execute mnl chk t c inc = Done (l, n) ->
  n = length l
  /\ forall i, In i l ->
       (forall c', applies_to i c' = ProductGateway.ProductCategory_eqb c' c)
       /\ (inc = false -> ing_is_active i = true).
Proof.
  unfold IngredientListByAppliesToUseCase_execute, find_by_applies_usage.
  destruct (to_entities mnl chk _) as [is|e] eqn:He; simpl; intros H;
    inversion H; subst; clear H.
  split; [reflexivity|]. intros i Hi.
  apply keep_visible_in in Hi as [Hi Hact]. split; [|exact Hact].
  destruct (to_entities_in _ _ He i Hi) as [r [Hr Hc]].
  apply filter_In in Hr as [_ Hm].
  destruct (ing_to_entity_fields r i Hc) as (_ & _ & Hb & Hs & Hd & Hds & _).
  destruct (matches_fields_one_hot c r Hm) as (Eb & Es & Ed & Eds).
  intros c'; destruct c'; cbn [applies_to]; congruence.
Qed.

(** X20: [IngredientCreateUseCase.execute] looks only at the first row
    that has the (normalised) name: when that row is soft-deleted the
    ingredient is added, whatever later rows with the same name hold,
    with the next free id. *)
Theorem ingredient_create_ignores_later_namesakes t name price m act ty b s d ds i r :
  Money_create price = Ok m ->
  Ingredient_create mnl name (Some m) act (Some ty) b s d ds None = Ok i ->
  find (has_name (name_value (ing_name i))) t = Some r ->
  im_is_active r = false ->
  snd (IngredientCreateUseCase_execute mnl chk t name price act ty b s d ds)
  = t ++ [with_id (to_model i) (Some (S (max_id t)))].
Proof.
  intros Hm Hc Hf Ha.
  assert (Hid : ing_internal_id i = None)
    by exact (ing_Ingredient_create_id _ _ _ _ _ _ _ _ _ _ Hc).
  unfold IngredientCreateUseCase_execute. rewrite Hm. simpl. rewrite Hc. simpl.
  unfold exists_by_name. rewrite Hf. unfold visible. rewrite Ha. simpl.
  unfold save. rewrite Hid. unfold db_add.
  replace (im_internal_id (to_model i)) with (@None nat)
    by (unfold to_model; simpl; rewrite Hid; reflexivity).
  reflexivity.
Qed.

(** X21: [IngredientUpdateUseCase.execute] checks the new name with
    [include_inactive=True]: renaming an ingredient to a name whose first
    row exists, even soft-deleted, raises [IngredientAlreadyExistsException]
    and writes nothing. *)
Theorem ingredient_update_rename_blocked t iid name price m act ty b s d ds i e r :
  Money_create price = Ok m ->
  Ingredient_create mnl name (Some m) act (Some ty) b s d ds iid = Ok i ->
  find_by_id mnl chk t iid true = Done (Some e) ->
  name_value (ing_name e) <> name_value (ing_name i) ->
  find (has_name (name_value (ing_name i))) t = Some r ->
  IngredientUpdateUseCase_execute mnl chk t iid name price act ty b s d ds
  = (Raised (IngredientAlreadyExistsException
               ("Ingredient with name " ++ name_value (ing_name i) ++ " already exists")), t).
Proof.
  intros Hm Hc Hfe Hne Hf.
  pose proof (ing_Ingredient_create_id _ _ _ _ _ _ _ _ _ _ Hc) as Hid.
  unfold IngredientUpdateUseCase_execute. rewrite Hm. simpl. rewrite Hc. simpl.
  rewrite Hid, Hfe. simpl.
  apply String.eqb_neq in Hne. rewrite Hne. simpl.
  unfold exists_by_name. rewrite Hf. reflexivity.
Qed.

(** X22: [IngredientDeleteUseCase.execute] is a soft delete that can be
    repeated: once it has returned, its result is [True], the row is no
    longer found without [include_inactive], and deleting the same id
    again returns [True] and leaves the table as it is. *)
Theorem ingredient_delete_repeatable t id b t' :
  IngredientDeleteUseCase_execute mnl chk t id = (Done b, t') ->
  b = true
  /\ find_by_id mnl chk t' (Some id) false = Done None
  /\ IngredientDeleteUseCase_execute mnl chk t' id = (Done true, t').
Proof.
  unfold IngredientDeleteUseCase_execute, find_by_id, find_first, delete.
  destruct (find (has_id (Some id)) t) as [r|] eqn:Hf; simpl;
    [|intros H; inversion H].
  unfold outcome_bind.
  destruct (to_entity mnl chk r) as [x|err] eqn:Hx; simpl; intros H; inversion H; subst.
  clear H.
  set (r' := set_active r false).
  assert (Hr' : has_id (Some id) r' = true)
    by (unfold r', has_id, set_active; simpl; exact (ing_find_some _ _ _ Hf)).
  pose proof (ing_find_replace_first _ r' t r Hf Hr') as Hf'.
  rewrite Hf'. simpl. repeat split.
  pose proof (ing_to_entity_set_active r x false Hx) as Hx'. fold r' in Hx'.
  rewrite Hx'. simpl.
  replace (set_active r' false) with r' by reflexivity.
  rewrite (ing_replace_first_idem _ r' t Hr'). reflexivity.
Qed.

(** X23: [save] of a new ingredient (no [internal_id]) stores the row
    under the next free id before converting it back, and reading that id
    with [find_by_id(..., include_inactive=True)] gives exactly what [save]
    returned or raised. *)
Theorem ingredient_save_new_then_find t i o t' :
  ing_internal_id i = None ->
  save mnl chk t i = (o, t') ->
  find_by_id mnl chk t' (Some (S (max_id t))) true
  = match o with Done x => Done (Some x) | Raised e => Raised e end.
Proof.
  intros Hid Hs. unfold save in Hs. rewrite Hid in Hs. unfold db_add in Hs.
  replace (im_internal_id (to_model i)) with (@None nat) in Hs
    by (unfold to_model; simpl; rewrite Hid; reflexivity).
  inversion Hs; subst; clear Hs.
  unfold find_by_id, find_first.
  rewrite find_app_none by apply max_id_fresh.
  cbn [find].
  replace (has_id _ _) with true
    by (unfold has_id; simpl; symmetry; apply Nat.eqb_refl).
  unfold visible, outcome_bind. cbn [orb].
  destruct (to_entity mnl chk _); reflexivity.
Qed.

(** X24: [find_by_type] returns only ingredients of the requested type,
    and without [include_inactive] only active ones. *)
Theorem ingredient_find_by_type_sound t ty inc l :
  find_by_type mnl chk t ty inc = Done l ->
  forall i, In i l ->
    ingredient_type i = ty /\ (inc = false -> ing_is_active i = true).
Proof.
  unfold find_by_type.
  destruct (to_entities mnl chk _) as [is|e] eqn:He; simpl; intros H;
    inversion H; subst; clear H.
  intros i Hi. apply keep_visible_in in Hi as [Hi Hact]. split; [|exact Hact].
  destruct (to_entities_in _ _ He i Hi) as [r [Hr Hc]].
  apply filter_In in Hr as [_ Ht]. unfold has_type in Ht.
  apply String.eqb_eq in Ht.
  destruct (ing_to_entity_fields r i Hc) as (_ & _ & _ & _ & _ & _ & Hty).
  rewrite Ht in Hty. exact (IngredientType_of_value_inv _ _ Hty).
Qed.

End IngredientGatewayFacts.

(** X25: unlike [exists_by_name], which looks at the first row with the
    name only, [exists_by_type] considers every row of the type: without
    [include_inactive] it is true exactly when some row of the type is
    active, with it exactly when some row has the type. *)
Theorem ingredient_exists_by_type_any t ty :
  IngredientGateway.exists_by_type t ty false
  = existsb (fun r => IngredientGateway.has_type (IngredientType_value ty) r
                      && IngredientGateway.im_is_active r) t
  /\ IngredientGateway.exists_by_type t ty true
     = existsb (IngredientGateway.has_type (IngredientType_value ty)) t.
Proof.
  unfold IngredientGateway.exists_by_type.
  split.
  - transitivity (existsb IngredientGateway.im_is_active
                    (filter (IngredientGateway.has_type (IngredientType_value ty)) t)).
    { destruct (filter _ t); reflexivity. }
    induction t as [|x rest IH]; simpl; [reflexivity|].
    destruct (IngredientGateway.has_type _ x); simpl; rewrite IH; reflexivity.
  - induction t as [|x rest IH]; simpl; [reflexivity|].
    destruct (IngredientGateway.has_type _ x); simpl; [reflexivity|exact IH].
Qed.

(** The invariant the spec gives the [Ingredient] constructor: at least one
    flag, each set flag compatible with the type. *)
Definition ingredient_invariant (ty : IngredientType) (b s d ds : bool) : result unit :=
  if negb (b || s || d || ds)
  then Err (BusinessRuleError "Ingredient must apply to at least one product category")
  else check_flags ty [(BURGER, b); (SIDE, s); (DRINK, d); (DESSERT, ds)].

Definition ing_row (id : nat) (name ty : string) (active b s d ds : bool)
    : IngredientGateway.IngredientModel :=
  IngredientGateway.mkIngredientModel (Some id) name (mkDecimal 100 (-2)) active ty
    b s d ds.

Definition one_real : Money := mkMoney (mkDecimal 100 (-2)).

(** A bun that applies to burgers and sides, and a lettuce for burgers only. *)
Definition burger_side_table : IngredientGateway.Table :=
  [ing_row 1 "Pao" "bread" true true true false false;
   ing_row 2 "Alface" "salad" true true false false false].

Definition lettuce : Ingredient :=
  mkIngredient (Some 2) (mkName "Alface") one_real true SALAD true false false false.

Lemma ingredient_list_by_applies_to_one_hot_witness :
  IngredientGateway.IngredientListByAppliesToUseCase_execute 100 ingredient_invariant
    burger_side_table BURGER false = IngredientGateway.Done ([lettuce], 1)
  /\ (forall c, applies_to lettuce c = ProductGateway.ProductCategory_eqb c BURGER).
Proof.
  assert (H : IngredientGateway.IngredientListByAppliesToUseCase_execute 100
                ingredient_invariant burger_side_table BURGER false
              = IngredientGateway.Done ([lettuce], 1)) by (vm_compute; reflexivity).
  split; [exact H|].
  exact (proj1 (proj2 (ingredient_list_by_applies_to_one_hot 100 ingredient_invariant
                         _ _ _ _ _ H) lettuce (or_introl eq_refl))).
Defined.

(** A soft-deleted bun followed by an active one with the same name. *)
Definition namesake_table : IngredientGateway.Table :=
  [ing_row 1 "Pao" "bread" false true false false false;
   ing_row 2 "Pao" "bread" true true false false false].

Definition new_bun : Ingredient :=
  mkIngredient None (mkName "Pao") one_real true BREAD true false false false.

Lemma ingredient_create_ignores_later_namesakes_witness :
  snd (IngredientGateway.IngredientCreateUseCase_execute 100 ingredient_invariant
         namesake_table "pao" (mkDecimal 100 (-2)) true BREAD true false false false)
  = namesake_table ++ [ing_row 3 "Pao" "bread" true true false false false].
Proof.
  rewrite (ingredient_create_ignores_later_namesakes 100 ingredient_invariant
             namesake_table "pao" (mkDecimal 100 (-2)) one_real true BREAD
             true false false false new_bun (ing_row 1 "Pao" "bread" false true false false false));
    vm_compute; reflexivity.
Defined.

(** A soft-deleted bun and an active cheese. *)
Definition rename_table : IngredientGateway.Table :=
  [ing_row 1 "Pao" "bread" false true false false false;
   ing_row 2 "Queijo" "cheese" true true false false false].

Lemma ingredient_update_rename_blocked_witness :
  IngredientGateway.IngredientUpdateUseCase_execute 100 ingredient_invariant rename_table
    (Some 2) "pao" (mkDecimal 100 (-2)) true CHEESE true false false false
  = (IngredientGateway.Raised
       (IngredientGateway.IngredientAlreadyExistsException
          "Ingredient with name Pao already exists"), rename_table).
Proof.
  apply (ingredient_update_rename_blocked 100 ingredient_invariant rename_table (Some 2)
           "pao" (mkDecimal 100 (-2)) one_real true CHEESE true false false false
           (mkIngredient (Some 2) (mkName "Pao") one_real true CHEESE true false false false)
           (mkIngredient (Some 2) (mkName "Queijo") one_real true CHEESE true false false false)
           (ing_row 1 "Pao" "bread" false true false false false)).
  - vm_compute. reflexivity.
  - vm_compute. reflexivity.
  - vm_compute. reflexivity.
  - simpl. discriminate.
  - vm_compute. reflexivity.
Defined.

Lemma ingredient_delete_repeatable_witness :
  IngredientGateway.IngredientDeleteUseCase_execute 100 ingredient_invariant
    [ing_row 1 "Pao" "bread" true true false false false] 1
  = (IngredientGateway.Done true, [ing_row 1 "Pao" "bread" false true false false false])
  /\ IngredientGateway.IngredientDeleteUseCase_execute 100 ingredient_invariant
       [ing_row 1 "Pao" "bread" false true false false false] 1
     = (IngredientGateway.Done true, [ing_row 1 "Pao" "bread" false true false false false]).
Proof.
  assert (H : IngredientGateway.IngredientDeleteUseCase_execute 100 ingredient_invariant
                [ing_row 1 "Pao" "bread" true true false false false] 1
              = (IngredientGateway.Done true,
                 [ing_row 1 "Pao" "bread" false true false false false]))
    by (vm_compute; reflexivity).
  split; [exact H|].
  exact (proj2 (proj2 (ingredient_delete_repeatable 100 ingredient_invariant _ _ _ _ H))).
Defined.

Definition saved_bun : Ingredient :=
  mkIngredient (Some 3) (mkName "Pao") one_real true BREAD true false false false.

Lemma ingredient_save_new_then_find_witness :
  IngredientGateway.save 100 ingredient_invariant namesake_table new_bun
  = (IngredientGateway.Done saved_bun,
     namesake_table ++ [ing_row 3 "Pao" "bread" true true false false false])
  /\ IngredientGateway.find_by_id 100 ingredient_invariant
       (namesake_table ++ [ing_row 3 "Pao" "bread" true true false false false])
       (Some 3) true
     = IngredientGateway.Done (Some saved_bun).
Proof.
  assert (H : IngredientGateway.save 100 ingredient_invariant namesake_table new_bun
              = (IngredientGateway.Done saved_bun,
                 namesake_table ++ [ing_row 3 "Pao" "bread" true true false false false]))
    by (vm_compute; reflexivity).
  split; [exact H|].
  exact (ingredient_save_new_then_find 100 ingredient_invariant namesake_table new_bun
                _ _ eq_refl H).
Defined.

Definition type_table : IngredientGateway.Table :=
  [ing_row 1 "Pao" "bread" true true false false false;
   ing_row 2 "Alface" "salad" true true false false false;
   ing_row 3 "Brioche" "bread" false true false false false].

Definition bun : Ingredient :=
  mkIngredient (Some 1) (mkName "Pao") one_real true BREAD true false false false.

Lemma ingredient_find_by_type_sound_witness :
  IngredientGateway.find_by_type 100 ingredient_invariant type_table BREAD false
  = IngredientGateway.Done [bun]
  /\ ingredient_type bun = BREAD.
Proof.
  assert (H : IngredientGateway.find_by_type 100 ingredient_invariant type_table BREAD false
              = IngredientGateway.Done [bun]) by (vm_compute; reflexivity).
  split; [exact H|].
  exact (proj1 (ingredient_find_by_type_sound 100 ingredient_invariant _ _ _ _ H
                  bun (or_introl eq_refl))).
Defined.

(* ------------------------------------------------------------------ *)
(** ** Sample ingredients *)

Section SeedFacts.

Import IngredientGateway.

Variable mnl : nat.
Variable chk : IngredientType -> bool -> bool -> bool -> bool -> result unit.

Lemma ing_Ingredient_create_flags name p a ty b s d ds iid i :
  Ingredient_create mnl name p a ty b s d ds iid = Ok i ->
  applies_to_burger i = b /\ applies_to_side i = s
  /\ applies_to_drink i = d /\ applies_to_dessert i = ds.
Proof.
  unfold Ingredient_create. intros H.
  destruct (Name_create _ _); cbn [bind] in H; [|discriminate].
  destruct p; [|discriminate]. destruct ty; [|discriminate].
  destruct (negb _); [discriminate|].
  destruct (check_flags _ _); cbn [bind] in H; [|discriminate].
  inversion H; repeat split.
Qed.

Lemma ing_save_new_table t i :
  ing_internal_id i = None ->
  snd (save mnl chk t i) = t ++ [with_id (to_model i) (Some (S (max_id t)))].
Proof.
  intros Hid. unfold save. rewrite Hid. unfold db_add.
  replace (im_internal_id (to_model i)) with (@None nat)
    by (unfold to_model; simpl; rewrite Hid; reflexivity).
  reflexivity.
Qed.

Lemma seed_loop_rows t items t' :
  InitDb.seed_loop mnl chk t items = Done t' ->
  forall r, In r t' ->
    In r t
    \/ exists d m, In (d, m) items
         /\ im_applies_to_burger r = InitDb.si_burger d
         /\ im_applies_to_side r = InitDb.si_side d
         /\ im_applies_to_drink r = InitDb.si_drink d
         /\ im_applies_to_dessert r = InitDb.si_dessert d.
Proof.
  revert t. induction items as [|[d m] rest IH]; simpl; intros t H r Hr.
  - inversion H; subst. left. exact Hr.
  - destruct (exists_by_name t (InitDb.si_name d) false).
    + destruct (IH t H r Hr) as [Hin|(d' & m' & Hin & E)]; [left; exact Hin|].
      right. exists d', m'. split; [right; exact Hin|exact E].
    + destruct (Ingredient_create _ _ _ _ _ _ _ _ _ _) as [i|e] eqn:Hc; [|discriminate].
      pose proof (ing_save_new_table t i (ing_Ingredient_create_id mnl _ _ _ _ _ _ _ _ _ _ Hc))
        as Ht.
      destruct (save mnl chk t i) as [o t1] eqn:Hs. destruct o as [x|e]; [|discriminate].
      simpl in Ht. subst t1.
      destruct (IH _ H r Hr) as [Hin|(d' & m' & Hin & E)].
      * apply in_app_or in Hin as [Hin|Hin]; [left; exact Hin|].
        destruct Hin as [<-|[]].
        right. exists d, m. split; [left; reflexivity|].
        destruct (ing_Ingredient_create_flags _ _ _ _ _ _ _ _ _ _ Hc) as (Eb & Es & Ed & Eds).
        simpl. repeat split; assumption.
      * right. exists d', m'. split; [right; exact Hin|exact E].
Qed.

(** X26: right after [create_sample_ingredients] has filled an empty
    table, listing the ingredients that apply to sides gives nothing: each
    of the eight sample ingredients usable for sides also applies to
    burgers, and [find_by_applies_usage] keeps only rows whose flags are
    exactly those of the requested category. *)
Theorem seeded_side_listing_empty t inc :
  InitDb.create_sample_ingredients mnl chk [] = Done t ->
  find_by_applies_usage mnl chk t SIDE inc = Done [].
Proof.
  unfold InitDb.create_sample_ingredients.
  destruct (InitDb.sample_prices InitDb.sample_ingredients) as [ms|e]; [|discriminate].
  intros H.
  assert (Hf : filter (matches_fields (applies_usage_fields SIDE)) t = []).
  { assert (Hall : forall r, In r t -> matches_fields (applies_usage_fields SIDE) r = false).
    { intros r Hr.
      destruct (seed_loop_rows [] _ t H r Hr) as [[]|(d & m & Hin & Eb & Es & Ed & Eds)].
      apply in_combine_l in Hin.
      unfold matches_fields, applies_usage_fields. rewrite Eb, Es, Ed, Eds.
      simpl in Hin. repeat (destruct Hin as [<-|Hin]; [reflexivity|]). destruct Hin. }
    clear H. induction t as [|x rest IHt]; [reflexivity|].
    cbn [filter]. rewrite (Hall x (or_introl eq_refl)).
    apply IHt. intros r Hr. apply Hall. right. exact Hr. }
  unfold find_by_applies_usage. rewrite Hf. simpl.
  unfold keep_visible. destruct inc; reflexivity.
Qed.

End SeedFacts.

Definition seeded_table : IngredientGateway.Table :=
  match InitDb.create_sample_ingredients 100 ingredient_invariant [] with
  | IngredientGateway.Done t => t
  | IngredientGateway.Raised _ => []
  end.

Lemma seeded_side_listing_empty_witness :
  InitDb.create_sample_ingredients 100 ingredient_invariant [] = IngredientGateway.Done seeded_table
  /\ length seeded_table = 19
  /\ IngredientGateway.find_by_applies_usage 100 ingredient_invariant seeded_table SIDE false
     = IngredientGateway.Done [].
Proof.
  assert (H : InitDb.create_sample_ingredients 100 ingredient_invariant []
              = IngredientGateway.Done seeded_table) by (vm_compute; reflexivity).
  split; [exact H|]. split; [vm_compute; reflexivity|].
  exact (seeded_side_listing_empty 100 ingredient_invariant _ false H).
Defined.
